(** * homeschool: students schema, teacher checklist views, request gate

    A shallow embedding of

    - [homeschool/teachers/views.py]   (the views [checklist] and
      [edit_checklist]),
    - [homeschool/students/migrations/0001_initial.py]  (the declared schema),
    - the behaviour that [homeschool/students/tests/test_views.py] pins down
      for the students views, whose own module is not part of the sources.

    Python exceptions are an explicit [outcome]; the datastore and the flash
    message storage are threaded through a small state monad; a template
    context is a finite map from names to values. *)

From Stdlib Require Import ZArith List Bool Lia DecimalString.
From stdpp Require Import gmap strings list.

Local Open Scope string_scope.
Local Open Scope Z_scope.

(* ===================================================================== *)
(** ** [datetime.date] *)
(* ===================================================================== *)

Module Datetime.

Record date := mkdate { year : Z; month : Z; day : Z }.

#[global] Instance date_eq_dec : EqDecision date.
Proof. solve_decision. Defined.

Definition MINYEAR : Z := 1.
Definition MAXYEAR : Z := 9999.

(** [year % 4 == 0 and (year % 100 != 0 or year % 400 == 0)] *)
Definition is_leap (y : Z) : bool :=
  (y mod 4 =? 0) && (negb (y mod 100 =? 0) || (y mod 400 =? 0)).

(** The table [_DAYS_IN_MONTH], with February adjusted in leap years. *)
Definition days_in_month (y m : Z) : Z :=
  if m =? 2 then (if is_leap y then 29 else 28)
  else if (m =? 4) || (m =? 6) || (m =? 9) || (m =? 11) then 30
  else 31.

(** The range checks of the constructor, in the order it makes them. *)
Definition check_date_fields (y m d : Z) : bool :=
  (MINYEAR <=? y) && (y <=? MAXYEAR)
  && (1 <=? m) && (m <=? 12)
  && (1 <=? d) && (d <=? days_in_month y m).

(** Comparison of dates is lexicographic on (year, month, day). *)
Definition ordinal_key (d : date) : Z :=
  (year d * 16 + month d) * 32 + day d.

Definition date_leb (a b : date) : bool := ordinal_key a <=? ordinal_key b.

End Datetime.

Import Datetime.

(* ===================================================================== *)
(** ** Exceptions and the view monad *)
(* ===================================================================== *)

Inductive Exception :=
| ValueError
| OverflowError.

Inductive outcome (A : Type) :=
| Returned (a : A)
| Raised (e : Exception).
Arguments Returned {A} a.
Arguments Raised {A} e.

(** The constructor of [datetime.date] takes its three arguments as C
    integers. *)
Definition fits_c_int (z : Z) : bool :=
  (-2147483648 <=? z) && (z <=? 2147483647).

(** What [datetime.date(year, month, day)] raises when it raises: an
    [OverflowError] when an argument does not fit a C integer, a
    [ValueError] when the three are no date of the calendar. *)
Definition date_error (y m d : Z) : Exception :=
  if fits_c_int y && fits_c_int m && fits_c_int d then ValueError
  else OverflowError.

(** [datetime.date(year, month, day)] *)
Definition date_new (y m d : Z) : outcome date :=
  if negb (fits_c_int y && fits_c_int m && fits_c_int d)
  then Raised OverflowError
  else if check_date_fields y m d then Returned (mkdate y m d)
  else Raised ValueError.

(** A computation over a mutable store [S] that may raise. The store that
    comes back after an exception is the store at the point of the raise. *)
Definition M (S A : Type) : Type := S -> outcome A * S.

Definition ret {S A} (a : A) : M S A := fun s => (Returned a, s).

Definition bind {S A B} (m : M S A) (k : A -> M S B) : M S B :=
  fun s => match m s with
           | (Returned a, s') => k a s'
           | (Raised e, s') => (Raised e, s')
           end.

Definition lift {S A} (o : outcome A) : M S A := fun s => (o, s).
Definition gets {S A} (f : S -> A) : M S A := fun s => (Returned (f s), s).
Definition modify {S} (f : S -> S) : M S unit := fun s => (Returned tt, f s).

Declare Scope view_scope.
Delimit Scope view_scope with view.
Notation "'let*' x := m 'in' k" := (bind m (fun x => k))
  (at level 10, x name, m at level 100, k at level 200) : view_scope.
Notation "m >> k" := (bind m (fun _ => k))
  (at level 100, k at level 200, right associativity) : view_scope.

(* ===================================================================== *)
(** ** Model instances the views read and write *)
(* ===================================================================== *)

(** Rows of the students application follow migration 0001; a foreign key is
    the primary key of the row it points to, and a school is known by its
    key.  [User], [SchoolYear], [GradeLevel], [Course], [CourseTask],
    [GradedWork], [Grade] and [Checklist] belong to other applications and
    carry only what the views and their tests touch. *)

Record User := { user_id : Z; user_school : Z }.

Record Student := {
  student_id : Z;
  first_name : string;
  last_name : string;
  student_school : Z
}.

Record SchoolYear := {
  school_year_id : Z;
  school_year_school : Z;
  start_date : date;
  end_date : date
}.

Record GradeLevel := { grade_level_id : Z; grade_level_school_year : Z }.

Record Enrollment := {
  enrollment_id : Z;
  enrollment_grade_level : Z;
  enrollment_student : Z
}.

Record Course := { course_id : Z; course_grade_levels : list Z }.

Record CourseTask := { course_task_id : Z; course_task_course : Z }.

Record Coursework := {
  coursework_id : Z;
  completed_date : date;
  coursework_course_task : Z;
  coursework_student : Z
}.

Record GradedWork := { graded_work_id : Z; graded_work_course_task : Z }.

Record Grade := { grade_student : Z; grade_graded_work : Z; score : Z }.

Record Checklist := {
  checklist_school_year : Z;
  excluded_courses : list Z
}.

#[global] Instance User_eq_dec : EqDecision User.
Proof. solve_decision. Defined.
#[global] Instance Student_eq_dec : EqDecision Student.
Proof. solve_decision. Defined.
#[global] Instance SchoolYear_eq_dec : EqDecision SchoolYear.
Proof. solve_decision. Defined.
#[global] Instance GradeLevel_eq_dec : EqDecision GradeLevel.
Proof. solve_decision. Defined.
#[global] Instance Enrollment_eq_dec : EqDecision Enrollment.
Proof. solve_decision. Defined.
#[global] Instance Course_eq_dec : EqDecision Course.
Proof. solve_decision. Defined.
#[global] Instance CourseTask_eq_dec : EqDecision CourseTask.
Proof. solve_decision. Defined.
#[global] Instance Coursework_eq_dec : EqDecision Coursework.
Proof. solve_decision. Defined.
#[global] Instance GradedWork_eq_dec : EqDecision GradedWork.
Proof. solve_decision. Defined.
#[global] Instance Grade_eq_dec : EqDecision Grade.
Proof. solve_decision. Defined.
#[global] Instance Checklist_eq_dec : EqDecision Checklist.
Proof. solve_decision. Defined.

(** The datastore: one list of rows per table, in insertion order. *)
Record Database := {
  students : list Student;
  school_years : list SchoolYear;
  grade_levels : list GradeLevel;
  enrollments : list Enrollment;
  courses : list Course;
  course_tasks : list CourseTask;
  courseworks : list Coursework;
  graded_works : list GradedWork;
  grades : list Grade;
  checklists : list Checklist
}.

(** What a request handler can change: the datastore, and the flash messages
    queued for the next page. *)
Record World := { db : Database; messages : list string }.

Definition with_db (f : Database -> Database) (w : World) : World :=
  {| db := f (db w); messages := messages w |}.

Definition add_message (msg : string) (w : World) : World :=
  {| db := db w; messages := (messages w ++ [msg])%list |}.

(* ===================================================================== *)
(** ** Requests, URLs and the collaborators of the teacher views *)
(* ===================================================================== *)

(** A URL: a reversed route (its name and keyword arguments, as
    [resolve_url] and the tests' [reverse] build it), a literal path, or the
    login page with the page to come back to. *)
Inductive Url :=
| Reverse (route_name : string) (kwargs : list (string * Z))
| Path (path : string)
| LoginUrl (next : Url).

#[global] Instance Url_eq_dec : EqDecision Url.
Proof. solve_decision. Defined.

Definition resolve_url (name : string) (kw : list (string * Z)) : Url :=
  Reverse name kw.

Record HttpRequest := {
  user : User;                    (* request.user *)
  is_authenticated : bool;        (* request.user.is_authenticated *)
  method : string;                (* request.method *)
  GET : gmap string string;       (* request.GET *)
  POST : gmap string string       (* request.POST *)
}.

(** What [teachers/views.py] imports and calls but does not define:
    [Week], [SchoolYear.get_year_for], [SchoolYear.get_schedules],
    [Checklist.filter_schedules], [Checklist.for_school_year],
    [ChecklistForm] and [User.get_local_today].  They are taken as total
    functions of the datastore, and only [ChecklistForm.save] writes to it.
    [filter_schedules] edits the list it is given in place, and the view
    renders that same list; the function here gives the list as it is
    after the call. *)
Class Externals := {
  Week : Type;
  Schedule : Type;
  get_local_today : User -> date;
  Week_of : date -> Week;
  get_year_for : Database -> User -> date -> option SchoolYear;
  get_schedules : Database -> SchoolYear -> date -> Week -> list Schedule;
  filter_schedules : Database -> SchoolYear -> list Schedule -> list Schedule;
  for_school_year : Database -> SchoolYear -> option Checklist;
  ChecklistForm_is_valid : Database -> gmap string string -> SchoolYear -> bool;
  ChecklistForm_save : gmap string string -> SchoolYear -> Database -> Database
}.

(** A bound form after validation: the data it was given and [form.errors]
    (non-field errors live under ["__all__"]). *)
Record Form := {
  form_data : gmap string string;
  form_errors : gmap string (list string)
}.

(** Values that the views put in a template context. *)
Inductive CtxValue `{E : Externals} : Type :=
| VStr (s : string)
| VBool (b : bool)
| VStudent (s : Student)
| VSchoolYear (y : option SchoolYear)
| VCourse (c : Course)
| VCourseTask (t : CourseTask)
| VStudents (l : list Student)
| VGradeLevels (l : list GradeLevel)
| VRoster (l : list (Student * option Enrollment))
| VWorkToGrade (l : list (Student * list GradedWork))
| VForm (f : Form)
| VSchedules (l : list Schedule)
| VWeek (w : Week)
| VChecklist (c : option Checklist).

Inductive HttpResponse `{E : Externals} : Type :=
| TemplateResponse (template_name : string) (context : gmap string CtxValue)
| HttpResponseRedirect (location : Url)
| HttpResponseForbidden
| HttpResponseNotFound.

Section Http.
Context `{E : Externals}.

Definition status_code (r : HttpResponse) : Z :=
  match r with
  | TemplateResponse _ _ => 200
  | HttpResponseRedirect _ => 302
  | HttpResponseForbidden => 403
  | HttpResponseNotFound => 404
  end.

(** [render(request, template_name, context)] *)
Definition render (template_name : string) (context : gmap string CtxValue)
  : HttpResponse := TemplateResponse template_name context.

(** [redirect(to)] *)
Definition redirect (to : Url) : HttpResponse := HttpResponseRedirect to.

(** The context a rendered response carries; other responses carry none. *)
Definition context_of (r : HttpResponse) : gmap string CtxValue :=
  match r with
  | TemplateResponse _ c => c
  | _ => ∅
  end.

Definition View := M World HttpResponse.

(** A view function as the URL configuration holds it: the function
    itself and the marks that the decorators of [denied.decorators] leave
    on it.  [authorize(authorizer)] records the authorizer and leaves the
    function as it is; the access decision is taken later, by the
    middleware ([process_view] below). *)
Record ViewFunc := {
  view_body : HttpRequest -> View;
  denied_authorizer : option (HttpRequest -> bool);
  denied_exempt : bool
}.

Definition authorize (authorizer : HttpRequest -> bool)
    (f : HttpRequest -> View) : ViewFunc :=
  {| view_body := f;
     denied_authorizer := Some authorizer;
     denied_exempt := false |}.

(** [denied.authorizers.any_authorized]: every authenticated user. *)
Definition any_authorized (_ : HttpRequest) : bool := true.

End Http.

(* ===================================================================== *)
(** ** [homeschool/teachers/views.py] *)
(* ===================================================================== *)

Section TeachersViews.
Context `{E : Externals}.
Local Open Scope view_scope.

(** Display a checklist of all the student tasks for a week. *)
Definition checklist (request : HttpRequest) (year month day : Z) : View :=
  let today := get_local_today (user request) in
  let* week_day := lift (date_new year month day) in
  let week := Week_of week_day in
  let* school_year :=
    gets (fun w => get_year_for (db w) (user request) week_day) in
  let* schedules :=
    match school_year with
    | Some sy =>
        let* schedules := gets (fun w => get_schedules (db w) sy today week) in
        gets (fun w => filter_schedules (db w) sy schedules)
    | None => ret []
    end in
  let context : gmap string CtxValue :=
    <["schedules" := VSchedules schedules]> (<["week" := VWeek week]> ∅) in
  ret (render "teachers/checklist.html" context).

(** The POST branch of [edit_checklist]: [Some] response when the view
    returns from inside it, [None] when control falls through. *)
Definition edit_checklist_post (request : HttpRequest) (sy : SchoolYear)
    (year month day : Z) : M World (option HttpResponse) :=
  if String.eqb (method request) "POST" then
    let* valid :=
      gets (fun w => ChecklistForm_is_valid (db w) (POST request) sy) in
    if (valid : bool) then
      modify (with_db (ChecklistForm_save (POST request) sy)) >>
      ret (Some (redirect
                   (resolve_url "teachers:checklist"
                      [("year", year); ("month", month); ("day", day)])))
    else ret None
  else ret None.

(** Edit the checklist to allow users to mark courses to exclude. *)
Definition edit_checklist (request : HttpRequest) (year month day : Z)
  : View :=
  let today := get_local_today (user request) in
  let* week_day := lift (date_new year month day) in
  let week := Week_of week_day in
  let* school_year :=
    gets (fun w => get_year_for (db w) (user request) week_day) in
  match school_year with
  | None => ret HttpResponseNotFound
  | Some sy =>
      let* returned := edit_checklist_post request sy year month day in
      match returned with
      | Some response => ret response
      | None =>
          let* schedules :=
            match school_year with
            | Some sy' => gets (fun w => get_schedules (db w) sy' today week)
            | None => ret []
            end in
          let* cl := gets (fun w => for_school_year (db w) sy) in
          let context : gmap string CtxValue :=
            <["checklist" := VChecklist cl]>
              (<["schedules" := VSchedules schedules]>
                 (<["week" := VWeek week]> ∅)) in
          ret (render "teachers/edit_checklist.html" context)
      end
  end.

(** The two views as decorated in the module:
    [@authorize(any_authorized)]. *)
Definition checklist_view (year month day : Z) : ViewFunc :=
  authorize any_authorized (fun request => checklist request year month day).

Definition edit_checklist_view (year month day : Z) : ViewFunc :=
  authorize any_authorized
    (fun request => edit_checklist request year month day).

End TeachersViews.

(* ===================================================================== *)
(** ** Queries scoped to a school *)
(* ===================================================================== *)

(** Modelled from the spec: the module [homeschool/schools/models.py] is
    absent; a school year of the user "covers" a date when the date lies
    between its start and end dates. *)
Definition year_for (d : Database) (u : User) (day : date)
  : option SchoolYear :=
  find (fun sy => (school_year_school sy =? user_school u)
                  && date_leb (start_date sy) day
                  && date_leb day (end_date sy))
       (school_years d).

(** Modelled from the spec: the students of a school, the query behind every
    students page ([Student.objects.filter(school=user.school)]). *)
Definition students_of (d : Database) (school : Z) : list Student :=
  List.filter (fun s => student_school s =? school) (students d).

(** Modelled from the spec: a student looked up within the user's school, as
    in [get_object_or_404(Student, uuid=..., school=user.school)]. *)
Definition get_student (d : Database) (school uuid : Z) : option Student :=
  find (fun s => (student_id s =? uuid) && (student_school s =? school))
       (students d).

(** Modelled from the spec: a school year looked up within the user's
    school. *)
Definition get_school_year (d : Database) (school uuid : Z)
  : option SchoolYear :=
  find (fun sy => (school_year_id sy =? uuid)
                  && (school_year_school sy =? school))
       (school_years d).

(** Modelled from the spec: the grade levels of a school year. *)
Definition grade_levels_of (d : Database) (sy : SchoolYear)
  : list GradeLevel :=
  List.filter (fun gl => grade_level_school_year gl =? school_year_id sy)
              (grade_levels d).

(** Modelled from the spec: a grade level belongs to a school through its
    school year. *)
Definition grade_level_in_school (d : Database) (school gl_id : Z) : bool :=
  existsb (fun gl =>
             (grade_level_id gl =? gl_id)
             && existsb (fun sy =>
                           (school_year_id sy =? grade_level_school_year gl)
                           && (school_year_school sy =? school))
                        (school_years d))
          (grade_levels d).

(** Modelled from the spec: a course belongs to a school when one of its
    grade levels does ([test_multiple_grade_levels]: several may). *)
Definition course_in_school (d : Database) (school : Z) (c : Course) : bool :=
  existsb (grade_level_in_school d school) (course_grade_levels c).

(** Modelled from the spec: a course task belongs to the school of its
    course. *)
Definition task_in_school (d : Database) (school task_id : Z) : bool :=
  existsb (fun t =>
             (course_task_id t =? task_id)
             && existsb (fun c => (course_id c =? course_task_course t)
                                  && course_in_school d school c)
                        (courses d))
          (course_tasks d).

(** Modelled from the spec: a course looked up within the user's school. *)
Definition get_course (d : Database) (school uuid : Z) : option Course :=
  find (fun c => (course_id c =? uuid) && course_in_school d school c)
       (courses d).

(** Modelled from the spec: a course task looked up within the user's
    school. *)
Definition get_course_task (d : Database) (school uuid : Z)
  : option CourseTask :=
  find (fun t => (course_task_id t =? uuid)
                 && task_in_school d school (course_task_id t))
       (course_tasks d).

(** Modelled from the spec: an enrollment is in a school year when its grade
    level is one of the year's. *)
Definition enrolled_in (d : Database) (sy : SchoolYear) (e : Enrollment)
  : bool :=
  existsb (fun gl => (grade_level_id gl =? enrollment_grade_level e)
                     && (grade_level_school_year gl =? school_year_id sy))
          (grade_levels d).

(** Modelled from the spec: the enrollment of a student in a school year, if
    there is one. *)
Definition get_enrollment (d : Database) (sy : SchoolYear) (s : Student)
  : option Enrollment :=
  find (fun e => (enrollment_student e =? student_id s) && enrolled_in d sy e)
       (enrollments d).

(** Modelled from the spec: the student has completed the task. *)
Definition has_coursework (d : Database) (s : Student) (task_id : Z) : bool :=
  existsb (fun c => (coursework_student c =? student_id s)
                    && (coursework_course_task c =? task_id))
          (courseworks d).

(** Modelled from the spec: the student has a grade for the graded work. *)
Definition has_grade (d : Database) (s : Student) (gw : GradedWork) : bool :=
  existsb (fun g => (grade_student g =? student_id s)
                    && (grade_graded_work g =? graded_work_id gw))
          (grades d).

(** The key that an [AutoField] gives to a new row. *)
Definition new_id {A} (key : A -> Z) (rows : list A) : Z :=
  fold_right Z.max 0 (map key rows) + 1.

(* ===================================================================== *)
(** ** The students views *)
(* ===================================================================== *)

(** The forms of [homeschool/students/forms.py], absent, whose rules no
    test shows: each gives the errors of a submission or its cleaned
    data. *)
Class Forms := {
  StudentForm_clean :
    gmap string string -> gmap string (list string) + (string * string);
  CourseworkForm_clean :
    gmap string string -> gmap string (list string) + date;
  GradeForm_clean :
    gmap string string -> gmap string (list string) + Z;
  grade_scores : gmap string string -> list Grade
}.

(** Modelled from the spec: the primary key that a choice field of the
    enrollment form posts, in decimal. *)
Definition parse_id (s : string) : option Z :=
  match NilEmpty.uint_of_string s with
  | Some u => Some (Z.of_N (N.of_uint u))
  | None => None
  end.

(** Modelled from the spec: a choice field of the enrollment form names a
    row by its key, or is in error. *)
Definition choice_field {A} (key : A -> Z) (rows : list A)
    (data : gmap string string) (name : string) : string + A :=
  match data !! name with
  | None => inl "This field is required."
  | Some v =>
      if String.eqb v "" then inl "This field is required."
      else match parse_id v with
           | None => inl "Select a valid choice."
           | Some k =>
               match find (fun r => key r =? k) rows with
               | Some r => inr r
               | None => inl "Select a valid choice."
               end
           end
  end.

(** Modelled from the spec: the error of a field, filed under the field's
    name. *)
Definition field_error {A} (name : string) (r : string + A)
    (errors : gmap string (list string)) : gmap string (list string) :=
  match r with
  | inl msg => <[name := [msg]]> errors
  | inr _ => errors
  end.

(** Modelled from the spec: the enrollment form is absent; the tests
    [test_invalid_student_submission] and
    [test_invalid_grade_level_submission] give its non-field errors: a
    student of another school and a grade level of another school are each
    refused with their own message. *)
Definition EnrollmentForm_clean (d : Database) (u : User)
    (data : gmap string string)
  : gmap string (list string) + (Student * GradeLevel) :=
  let student := choice_field student_id (students d) data "student" in
  let grade_level :=
    choice_field grade_level_id (grade_levels d) data "grade_level" in
  match student, grade_level with
  | inr s, inr gl =>
      let errors :=
        ((if student_school s =? user_school u then []
          else ["You may not enroll that student."])
         ++ (if grade_level_in_school d (user_school u) (grade_level_id gl)
             then []
             else ["You may not enroll to that grade level."]))%list in
      match errors with
      | [] => inr (s, gl)
      | _ => inl {["__all__" := errors]}
      end
  | _, _ =>
      inl (field_error "student" student
             (field_error "grade_level" grade_level ∅))
  end.

(** Replace one table. *)
Definition set_students (l : list Student) (d : Database) : Database :=
  {| students := l; school_years := school_years d;
     grade_levels := grade_levels d; enrollments := enrollments d;
     courses := courses d; course_tasks := course_tasks d;
     courseworks := courseworks d; graded_works := graded_works d;
     grades := grades d; checklists := checklists d |}.

Definition set_enrollments (l : list Enrollment) (d : Database) : Database :=
  {| students := students d; school_years := school_years d;
     grade_levels := grade_levels d; enrollments := l;
     courses := courses d; course_tasks := course_tasks d;
     courseworks := courseworks d; graded_works := graded_works d;
     grades := grades d; checklists := checklists d |}.

Definition set_courseworks (l : list Coursework) (d : Database) : Database :=
  {| students := students d; school_years := school_years d;
     grade_levels := grade_levels d; enrollments := enrollments d;
     courses := courses d; course_tasks := course_tasks d;
     courseworks := l; graded_works := graded_works d;
     grades := grades d; checklists := checklists d |}.

Definition set_graded_works (l : list GradedWork) (d : Database)
  : Database :=
  {| students := students d; school_years := school_years d;
     grade_levels := grade_levels d; enrollments := enrollments d;
     courses := courses d; course_tasks := course_tasks d;
     courseworks := courseworks d; graded_works := l;
     grades := grades d; checklists := checklists d |}.

Definition set_grades (l : list Grade) (d : Database) : Database :=
  {| students := students d; school_years := school_years d;
     grade_levels := grade_levels d; enrollments := enrollments d;
     courses := courses d; course_tasks := course_tasks d;
     courseworks := courseworks d; graded_works := graded_works d;
     grades := l; checklists := checklists d |}.

(** [Model.objects.create(...)]: one more row at the end of its table. *)
Definition insert_student (s : Student) (d : Database) : Database :=
  set_students (students d ++ [s])%list d.

Definition insert_enrollment (e : Enrollment) (d : Database) : Database :=
  set_enrollments (enrollments d ++ [e])%list d.

Definition insert_coursework (c : Coursework) (d : Database) : Database :=
  set_courseworks (courseworks d ++ [c])%list d.

Definition insert_grades (gs : list Grade) (d : Database) : Database :=
  set_grades (grades d ++ gs)%list d.

(** Modelled from the spec: the roster of the index page ([test_has_roster],
    [test_unenrolled_student]): every student of the school with the
    enrollment in the current school year, or none. *)
Definition roster_of (d : Database) (u : User) (today : date)
  : list (Student * option Enrollment) :=
  map (fun s =>
         (s, match year_for d u today with
             | Some sy => get_enrollment d sy s
             | None => None
             end))
      (students_of d (user_school u)).

(** Modelled from the spec: what is left to grade ([test_fetch_graded_work],
    [test_not_graded_work_from_other_school]): the graded work of the school
    that a student has completed and that has no grade yet. *)
Definition graded_work_for (d : Database) (school : Z) (s : Student)
  : list GradedWork :=
  List.filter (fun gw =>
                 has_coursework d s (graded_work_course_task gw)
                 && task_in_school d school (graded_work_course_task gw)
                 && negb (has_grade d s gw))
              (graded_works d).

(** Modelled from the spec: the work to grade of every student of the school
    ([test_fetch_students]). *)
Definition work_to_grade_of (d : Database) (u : User)
  : list (Student * list GradedWork) :=
  map (fun s => (s, graded_work_for d (user_school u) s))
      (students_of d (user_school u)).

Definition is_post (request : HttpRequest) : bool :=
  String.eqb (method request) "POST".

(** The module [homeschool/students/views.py] is absent.  Each view below
    does what the spec's component design says (look the referenced rows up
    within the user's school, 404 otherwise, then render or redirect) and
    what [homeschool/students/tests/test_views.py] checks of it.  Template
    names and the redirect of a saved coursework are not fixed by the
    tests; the forecast of planned dates comes from the scheduling module
    and is left out of the course page's context. *)
Section StudentsViews.
Context `{E : Externals} `{F : Forms}.
Local Open Scope view_scope.

(** Modelled from the spec: a form that does not validate is rendered again,
    in the context under ["form"] ([test_invalid_student_submission]). *)
Definition form_invalid (template_name : string)
    (context : gmap string CtxValue) (data : gmap string string)
    (errors : gmap string (list string)) : HttpResponse :=
  render template_name
    (<["form" := VForm {| form_data := data; form_errors := errors |}]>
       context).

(** Modelled from the spec: [students:index]. *)
Definition index (request : HttpRequest) : View :=
  let today := get_local_today (user request) in
  let* d := gets db in
  let context : gmap string CtxValue :=
    <["nav_link" := VStr "students"]>
      (<["school_year" := VSchoolYear (year_for d (user request) today)]>
         (<["roster" := VRoster (roster_of d (user request) today)]> ∅)) in
  ret (render "students/index.html" context).

(** Modelled from the spec: [students:create]. *)
Definition create (request : HttpRequest) : View :=
  let context : gmap string CtxValue := <["create" := VBool true]> ∅ in
  if is_post request then
    match StudentForm_clean (POST request) with
    | inl errors =>
        ret (form_invalid "students/student_form.html" context
               (POST request) errors)
    | inr (first, last) =>
        modify (with_db (fun d =>
          insert_student
            {| student_id := new_id student_id (students d);
               first_name := first; last_name := last;
               student_school := user_school (user request) |} d)) >>
        ret (redirect (resolve_url "students:index" []))
    end
  else ret (render "students/student_form.html" context).

(** Modelled from the spec: [students:course]. *)
Definition course (request : HttpRequest) (uuid course_uuid : Z) : View :=
  let school := user_school (user request) in
  let* d := gets db in
  match get_student d school uuid, get_course d school course_uuid with
  | Some student, Some c =>
      let context : gmap string CtxValue :=
        <["student" := VStudent student]> (<["course" := VCourse c]> ∅) in
      ret (render "students/course.html" context)
  | _, _ => ret HttpResponseNotFound
  end.

(** Modelled from the spec: [students:coursework]. *)
Definition coursework (request : HttpRequest) (uuid course_task_uuid : Z)
  : View :=
  let school := user_school (user request) in
  let* d := gets db in
  match get_student d school uuid,
        get_course_task d school course_task_uuid with
  | Some student, Some task =>
      let context : gmap string CtxValue :=
        <["student" := VStudent student]>
          (<["course_task" := VCourseTask task]> ∅) in
      if is_post request then
        match CourseworkForm_clean (POST request) with
        | inl errors =>
            ret (form_invalid "students/coursework_form.html" context
                   (POST request) errors)
        | inr completed =>
            modify (with_db (fun d =>
              insert_coursework
                {| coursework_id := new_id coursework_id (courseworks d);
                   completed_date := completed;
                   coursework_course_task := course_task_id task;
                   coursework_student := student_id student |} d)) >>
            ret (redirect (resolve_url "core:daily" []))
        end
      else ret (render "students/coursework_form.html" context)
  | _, _ => ret HttpResponseNotFound
  end.

(** Modelled from the spec: [students:grade_task]. *)
Definition grade_task (request : HttpRequest) (uuid course_task_uuid : Z)
  : View :=
  let school := user_school (user request) in
  let* d := gets db in
  match get_student d school uuid,
        get_course_task d school course_task_uuid with
  | Some student, Some task =>
      match find (fun gw => graded_work_course_task gw =? course_task_id task)
                 (graded_works d) with
      | None => ret HttpResponseNotFound
      | Some gw =>
          let context : gmap string CtxValue :=
            <["student" := VStudent student]>
              (<["course_task" := VCourseTask task]> ∅) in
          if is_post request then
            match GradeForm_clean (POST request) with
            | inl errors =>
                ret (form_invalid "students/grade_form.html" context
                       (POST request) errors)
            | inr sc =>
                modify (with_db (insert_grades
                  [{| grade_student := student_id student;
                      grade_graded_work := graded_work_id gw;
                      score := sc |}])) >>
                ret (redirect
                       match GET request !! "next" with
                       | Some next => Path next
                       | None => resolve_url "core:daily" []
                       end)
            end
          else ret (render "students/grade_form.html" context)
      end
  | _, _ => ret HttpResponseNotFound
  end.

(** Modelled from the spec: [students:grade]. *)
Definition grade (request : HttpRequest) : View :=
  let u := user request in
  if is_post request then
    modify (with_db (fun d =>
      insert_grades
        (List.filter
           (fun g => existsb (fun s => student_id s =? grade_student g)
                             (students_of d (user_school u)))
           (grade_scores (POST request))) d)) >>
    ret (redirect (resolve_url "core:daily" []))
  else
    let* d := gets db in
    let work := work_to_grade_of d u in
    let context : gmap string CtxValue :=
      <["work_to_grade" := VWorkToGrade work]>
        (<["has_work_to_grade" :=
             VBool (existsb (fun item => match snd item with
                                         | [] => false
                                         | _ :: _ => true
                                         end) work)]>
           ∅) in
    ret (render "students/grade.html" context).

(** Modelled from the spec: what an enrollment POST does once the school
    year is found ([test_post], [test_invalid_student_submission]). *)
Definition enrollment_post (request : HttpRequest) (sy : SchoolYear)
    (context : gmap string CtxValue) : View :=
  let* d := gets db in
  match EnrollmentForm_clean d (user request) (POST request) with
  | inl errors =>
      ret (form_invalid "students/enrollment_form.html" context
             (POST request) errors)
  | inr (student, gl) =>
      modify (with_db (fun d =>
        insert_enrollment
          {| enrollment_id := new_id enrollment_id (enrollments d);
             enrollment_grade_level := grade_level_id gl;
             enrollment_student := student_id student |} d)) >>
      ret (redirect (resolve_url "schools:school_year_detail"
                       [("uuid", school_year_id sy)]))
  end.

(** Modelled from the spec: the students of the school that have no
    enrollment in the year ([test_get] of the enrollment page). *)
Definition enrollable_students (d : Database) (school : Z)
    (sy : SchoolYear) : list Student :=
  List.filter (fun s => match get_enrollment d sy s with
                        | Some _ => false
                        | None => true
                        end)
              (students_of d school).

(** Modelled from the spec: [students:enrollment_create]. The order of the
    three workflow checks is the one the tests need: [test_no_grade_levels]
    has neither grade levels nor students and is sent to the grade level
    page, and [test_no_students] has a grade level and no students. *)
Definition enrollment_create (request : HttpRequest) (school_year_uuid : Z)
  : View :=
  let school := user_school (user request) in
  let* d := gets db in
  match get_school_year d school school_year_uuid with
  | None => ret HttpResponseNotFound
  | Some sy =>
      let context : gmap string CtxValue :=
        <["school_year" := VSchoolYear (Some sy)]>
          (<["grade_levels" := VGradeLevels (grade_levels_of d sy)]>
             (<["students" :=
                  VStudents (enrollable_students d school sy)]> ∅)) in
      if is_post request then enrollment_post request sy context
      else
        match grade_levels_of d sy with
        | [] =>
            modify (add_message
              "You need to create a grade level for a student to enroll in.")
            >> ret (redirect (resolve_url "schools:grade_level_create"
                                [("uuid", school_year_id sy)]))
        | _ :: _ =>
            match students_of d school with
            | [] =>
                modify (add_message "You need to add a student to enroll.")
                >> ret (redirect (resolve_url "students:index" []))
            | _ :: _ =>
                match enrollable_students d school sy with
                | [] =>
                    modify (add_message
                      "All students are enrolled in the school year.")
                    >> ret (redirect
                              (resolve_url "schools:school_year_detail"
                                 [("uuid", school_year_id sy)]))
                | _ :: _ =>
                    ret (render "students/enrollment_form.html" context)
                end
            end
        end
  end.

(** Modelled from the spec: [students:student_enrollment_create]. *)
Definition student_enrollment_create (request : HttpRequest)
    (uuid school_year_uuid : Z) : View :=
  let school := user_school (user request) in
  let* d := gets db in
  match get_student d school uuid,
        get_school_year d school school_year_uuid with
  | Some student, Some sy =>
      let context : gmap string CtxValue :=
        <["student" := VStudent student]>
          (<["school_year" := VSchoolYear (Some sy)]>
             (<["grade_levels" := VGradeLevels (grade_levels_of d sy)]>
                ∅)) in
      if is_post request then enrollment_post request sy context
      else ret (render "students/enrollment_form.html" context)
  | _, _ => ret HttpResponseNotFound
  end.

End StudentsViews.

(* ===================================================================== *)
(** ** Routes and the access gate *)
(* ===================================================================== *)

Inductive Route :=
| students_index
| students_create
| students_course (uuid course_uuid : Z)
| students_coursework (uuid course_task_uuid : Z)
| students_grade_task (uuid course_task_uuid : Z)
| students_grade
| students_enrollment_create (school_year_uuid : Z)
| students_student_enrollment_create (uuid school_year_uuid : Z)
| teachers_checklist (year month day : Z)
| teachers_edit_checklist (year month day : Z).

(** [reverse(name, **kwargs)] of the route that a request came in on. *)
Definition url_of (r : Route) : Url :=
  match r with
  | students_index => Reverse "students:index" []
  | students_create => Reverse "students:create" []
  | students_course u c =>
      Reverse "students:course" [("uuid", u); ("course_uuid", c)]
  | students_coursework u t =>
      Reverse "students:coursework" [("uuid", u); ("course_task_uuid", t)]
  | students_grade_task u t =>
      Reverse "students:grade_task" [("uuid", u); ("course_task_uuid", t)]
  | students_grade => Reverse "students:grade" []
  | students_enrollment_create y =>
      Reverse "students:enrollment_create" [("school_year_uuid", y)]
  | students_student_enrollment_create u y =>
      Reverse "students:student_enrollment_create"
        [("uuid", u); ("school_year_uuid", y)]
  | teachers_checklist y m d =>
      Reverse "teachers:checklist" [("year", y); ("month", m); ("day", d)]
  | teachers_edit_checklist y m d =>
      Reverse "teachers:edit_checklist"
        [("year", y); ("month", m); ("day", d)]
  end.

Section Gate.
Context `{E : Externals} `{F : Forms}.
Local Open Scope view_scope.

(** Modelled from the spec: the URL configuration is absent. Each route has
    its view function; the two teacher views carry the decorator of their
    module, and "authentication required on every view" makes each students
    view an authorized view too. *)
Definition resolve (r : Route) : ViewFunc :=
  match r with
  | students_index => authorize any_authorized index
  | students_create => authorize any_authorized create
  | students_course u c =>
      authorize any_authorized (fun request => course request u c)
  | students_coursework u t =>
      authorize any_authorized (fun request => coursework request u t)
  | students_grade_task u t =>
      authorize any_authorized (fun request => grade_task request u t)
  | students_grade => authorize any_authorized grade
  | students_enrollment_create y =>
      authorize any_authorized (fun request => enrollment_create request y)
  | students_student_enrollment_create u y =>
      authorize any_authorized
        (fun request => student_enrollment_create request u y)
  | teachers_checklist y m d => checklist_view y m d
  | teachers_edit_checklist y m d => edit_checklist_view y m d
  end.

(** Modelled from the spec: the middleware of the [denied] package is
    absent. It decides before the view runs: a view marked exempt runs for
    everyone; otherwise a request that is not authenticated is sent to the
    login page, and an authenticated one runs the view when the view's
    authorizer accepts it and is refused when there is no authorizer or it
    declines. *)
Definition process_view (v : ViewFunc) (back : Url)
    (request : HttpRequest) : View :=
  if denied_exempt v then view_body v request
  else if negb (is_authenticated request) then
    ret (redirect (LoginUrl back))
  else
    match denied_authorizer v with
    | Some authorizer =>
        if authorizer request then view_body v request
        else ret HttpResponseForbidden
    | None => ret HttpResponseForbidden
    end.

(** Modelled from the spec: one request, from the URL to the response. *)
Definition handle (r : Route) (request : HttpRequest) : View :=
  process_view (resolve r) (url_of r) request.

End Gate.

(* ===================================================================== *)
(** ** [homeschool/students/migrations/0001_initial.py] *)
(* ===================================================================== *)

Module Schema.

(** [django.db.models.deletion]: what happens to a row when the row its
    foreign key points to is deleted.  The migration uses [CASCADE] only;
    [DO_NOTHING] is the other end of the scale. *)
Inductive OnDelete := CASCADE | DO_NOTHING.

Inductive Field :=
| AutoField (auto_created primary_key serialize : bool)
            (verbose_name : string)
| CharField (max_length : Z)
| DateField (db_index : bool)
| ForeignKey (on_delete : OnDelete) (to : string).

Inductive OptionValue :=
| OptStr (s : string)
| OptColumns (sets : list (list string)).

(** [migrations.CreateModel(name, fields, options)] *)
Record CreateModel := {
  name : string;
  fields : list (string * Field);
  options : list (string * OptionValue)
}.

#[global] Instance OnDelete_eq_dec : EqDecision OnDelete.
Proof. solve_decision. Defined.
#[global] Instance Field_eq_dec : EqDecision Field.
Proof. solve_decision. Defined.

Definition id_field : string * Field :=
  ("id", AutoField true true false "ID").

(** The three [CreateModel] operations, in the order of the file. *)
Definition Student_table : CreateModel :=
  {| name := "Student";
     fields :=
       [ id_field;
         ("first_name", CharField 64);
         ("last_name", CharField 64);
         ("school", ForeignKey CASCADE "schools.School") ];
     options := [] |}.

Definition Enrollment_table : CreateModel :=
  {| name := "Enrollment";
     fields :=
       [ id_field;
         ("grade_level", ForeignKey CASCADE "schools.GradeLevel");
         ("student", ForeignKey CASCADE "students.Student") ];
     options := [] |}.

Definition Coursework_table : CreateModel :=
  {| name := "Coursework";
     fields :=
       [ id_field;
         ("completed_date", DateField true);
         ("course_task", ForeignKey CASCADE "courses.CourseTask");
         ("student", ForeignKey CASCADE "students.Student") ];
     options := [("verbose_name_plural", OptStr "coursework")] |}.

(** [Migration.operations] *)
Definition operations : list CreateModel :=
  [Student_table; Enrollment_table; Coursework_table].

(** [Migration.initial] *)
Definition initial : bool := true.

(** [Migration.dependencies] *)
Definition dependencies : list (string * string) :=
  [("courses", "0001_initial"); ("schools", "0001_initial")].

(** The application that owns the migration, from its place in the
    package. *)
Definition app_label : string := "students".

Definition label (m : CreateModel) : string :=
  (app_label ++ "." ++ name m)%string.

Definition get_model (schema : list CreateModel) (model : string)
  : option CreateModel :=
  find (fun m => String.eqb (name m) model) schema.

Definition get_field (schema : list CreateModel) (model field : string)
  : option Field :=
  match get_model schema model with
  | Some m =>
      match find (fun nf => String.eqb (fst nf) field) (fields m) with
      | Some nf => Some (snd nf)
      | None => None
      end
  | None => None
  end.

(** The foreign keys a schema declares: (table, column, target table,
    on_delete). *)
Definition foreign_keys_of (m : CreateModel)
  : list (string * string * string * OnDelete) :=
  flat_map (fun nf => match snd nf with
                      | ForeignKey od to => [(label m, fst nf, to, od)]
                      | _ => []
                      end)
           (fields m).

Definition foreign_keys (schema : list CreateModel)
  : list (string * string * string * OnDelete) :=
  flat_map foreign_keys_of schema.

(** The column sets that the database keeps unique for a model: a primary
    key column, and whatever a [unique_together] option lists. *)
Definition unique_sets (m : CreateModel) : list (list string) :=
  (flat_map (fun nf => match snd nf with
                       | AutoField _ true _ _ => [[fst nf]]
                       | _ => []
                       end)
            (fields m)
   ++ flat_map (fun o => match o with
                         | ("unique_together", OptColumns sets) => sets
                         | _ => []
                         end)
               (options m))%list.

(** *** Table contents *)

Inductive Value := VInt (z : Z) | VText (s : string) | VDate (d : date).

#[global] Instance Value_eq_dec : EqDecision Value.
Proof. solve_decision. Defined.

Definition key_of (r : gmap string Value) : option Z :=
  match r !! "id" with
  | Some (VInt k) => Some k
  | _ => None
  end.

Definition rows_of (t : gmap string (list (gmap string Value)))
    (table : string) : list (gmap string Value) :=
  default [] (t !! table).

(** The value in a column is one of the given keys. *)
Definition references (column : string) (keys : list Z)
    (r : gmap string Value) : bool :=
  match r !! column with
  | Some (VInt k) => existsb (Z.eqb k) keys
  | _ => false
  end.

Definition project (cols : list string) (r : gmap string Value)
  : list (option Value) :=
  map (fun c => r !! c) cols.

(** What the database checks of a column value: it is there, it has the
    column's type, and a foreign key points to an existing row. *)
Definition field_ok (t : gmap string (list (gmap string Value)))
    (r : gmap string Value) (nf : string * Field) : Prop :=
  match snd nf, r !! fst nf with
  | AutoField _ _ _ _, Some (VInt _) => True
  | CharField n, Some (VText s) => Z.of_nat (String.length s) <= n
  | DateField _, Some (VDate _) => True
  | ForeignKey _ to, Some (VInt k) =>
      Exists (fun r' => key_of r' = Some k) (rows_of t to)
  | _, _ => False
  end.

Definition model_ok (t : gmap string (list (gmap string Value)))
    (m : CreateModel) : Prop :=
  Forall (fun r => Forall (field_ok t r) (fields m)) (rows_of t (label m))
  /\ Forall (fun cols => NoDup (map (project cols) (rows_of t (label m))))
            (unique_sets m).

(** The states of the tables that the declared schema admits. *)
Definition admissible (schema : list CreateModel)
    (t : gmap string (list (gmap string Value))) : Prop :=
  Forall (model_ok t) schema.

(** *** Deletion *)

(** The columns of a schema that point to a table. *)
Definition referrers (schema : list CreateModel) (target : string)
  : list (string * string * OnDelete) :=
  flat_map (fun fk => match fk with
                      | (table, column, to, od) =>
                          if String.eqb to target
                          then [(table, column, od)] else []
                      end)
           (foreign_keys schema).

(** Delete the rows of a table that [doomed] selects, after the rows that
    depend on them: first every table with a cascading foreign key to this
    one loses the rows that point to a doomed row (and so on, one level
    per unit of [fuel]), then the doomed rows go. *)
Fixpoint delete_where (fuel : nat) (schema : list CreateModel)
    (table : string) (doomed : gmap string Value -> bool)
    (t : gmap string (list (gmap string Value)))
  : gmap string (list (gmap string Value)) :=
  match fuel with
  | O => t
  | S fuel' =>
      let keys := omap key_of (List.filter doomed (rows_of t table)) in
      let t' :=
        fold_left
          (fun acc ref =>
             match ref with
             | (child, column, CASCADE) =>
                 delete_where fuel' schema child (references column keys) acc
             | (_, _, DO_NOTHING) => acc
             end)
          (referrers schema table) t in
      <[table := List.filter (fun r => negb (doomed r)) (rows_of t' table)]> t'
  end.

(** Every row of [t'] is a row of [t], table by table. *)
Definition shrinks (t' t : gmap string (list (gmap string Value))) : Prop :=
  forall table r, In r (rows_of t' table) -> In r (rows_of t table).

(** No column of a model points to the table [x]. *)
Definition unreferenced (x : string) (m : CreateModel) : Prop :=
  Forall (fun nf => match snd nf with
                    | ForeignKey _ to => to <> x
                    | _ => True
                    end)
         (fields m).

(** [obj.delete()] for the row of [table] with primary key [k].  A chain
    of foreign keys in a schema without cycles is no longer than the
    number of its models.  The cascade follows the foreign keys of the
    schema it is given; the keys that other migrations declare are not
    among those of migration 0001, so for these tables [delete] removes
    a part of what a delete in the whole application removes. *)
Definition delete (schema : list CreateModel) (table : string) (k : Z)
    (t : gmap string (list (gmap string Value)))
  : gmap string (list (gmap string Value)) :=
  delete_where (S (length schema)) schema table
    (fun r => match key_of r with Some k' => k' =? k | None => false end) t.

(** The row has the primary key [k]: the test by which [delete] picks its
    row. *)
Definition has_key (k : Z) (r : gmap string Value) : bool :=
  match key_of r with Some k' => k' =? k | None => false end.

(** Every table of [t'] is what is left of the table in [t] after some rows
    were taken out. *)
Definition restriction (t' t : gmap string (list (gmap string Value)))
  : Prop :=
  forall table, sublist (rows_of t' table) (rows_of t table).

(** The foreign keys of the rows of [t'] that had a target in [t] still have
    one in [t']. *)
Definition keeps_targets (schema : list CreateModel)
    (t' t : gmap string (list (gmap string Value))) : Prop :=
  forall child column to od r k,
    In (child, column, to, od) (foreign_keys schema) ->
    In r (rows_of t' child) ->
    r !! column = Some (VInt k) ->
    Exists (fun r' => key_of r' = Some k) (rows_of t to) ->
    Exists (fun r' => key_of r' = Some k) (rows_of t' to).

End Schema.

(* ===================================================================== *)
(** ** Properties stated over the views *)
(* ===================================================================== *)

(** A row is owned by another school than the user's. *)
Definition foreign_student (u : User) (s : Student) : Prop :=
  student_school s <> user_school u.

(** A coursework belongs to the school of its student: none of the
    students of the user's school is its student. *)
Definition foreign_coursework (d : Database) (u : User) (c : Coursework)
  : Prop :=
  forall s, In s (students_of d (user_school u)) ->
            student_id s <> coursework_student c.

(** A graded work belongs to the school of its course task. *)
Definition foreign_graded_work (d : Database) (u : User) (g : GradedWork)
  : Prop :=
  task_in_school d (user_school u) (graded_work_course_task g) = false.

(** [foreign_insert u d d']: [d'] is [d] with one more row, owned by another
    school than [u]'s, at any place of its table. *)
Inductive foreign_insert (u : User) (d : Database) : Database -> Prop :=
| insert_foreign_student (s : Student) (pre post : list Student) :
    students d = (pre ++ post)%list ->
    foreign_student u s ->
    foreign_insert u d (set_students (pre ++ s :: post)%list d)
| insert_foreign_coursework (c : Coursework) (pre post : list Coursework) :
    courseworks d = (pre ++ post)%list ->
    foreign_coursework d u c ->
    foreign_insert u d (set_courseworks (pre ++ c :: post)%list d)
| insert_foreign_graded_work (g : GradedWork) (pre post : list GradedWork) :
    graded_works d = (pre ++ post)%list ->
    foreign_graded_work d u g ->
    foreign_insert u d (set_graded_works (pre ++ g :: post)%list d).

(** Ownership, on the columns of the rows: a student and a school year
    carry their school; a grade level is owned through its school year, a
    course through one of its grade levels, a course task through its
    course ("all entities are scoped transitively to a School"). *)
Definition owns_student (d : Database) (school uuid : Z) : Prop :=
  exists s, In s (students d)
            /\ student_id s = uuid /\ student_school s = school.

Definition owns_school_year (d : Database) (school uuid : Z) : Prop :=
  exists sy, In sy (school_years d)
             /\ school_year_id sy = uuid /\ school_year_school sy = school.

Definition owns_grade_level (d : Database) (school gl_id : Z) : Prop :=
  exists gl, In gl (grade_levels d)
             /\ grade_level_id gl = gl_id
             /\ owns_school_year d school (grade_level_school_year gl).

Definition owns_course (d : Database) (school uuid : Z) : Prop :=
  exists c, In c (courses d)
            /\ course_id c = uuid
            /\ exists gl_id, In gl_id (course_grade_levels c)
                             /\ owns_grade_level d school gl_id.

Definition owns_course_task (d : Database) (school uuid : Z) : Prop :=
  exists t, In t (course_tasks d)
            /\ course_task_id t = uuid
            /\ owns_course d school (course_task_course t).

Definition get_request (u : User) : HttpRequest :=
  {| user := u; is_authenticated := true; method := "GET";
     GET := ∅; POST := ∅ |}.

Section Statements.
Context `{E : Externals} `{F : Forms}.

(** The request names a student, course, course task or school year of
    which the user's school owns none (there is no such row, or every such
    row is another school's); for the two teacher routes, the date of the
    request is in no school year of the user. *)
Definition references_missing_resource (d : Database) (u : User)
    (r : Route) : Prop :=
  let school := user_school u in
  match r with
  | students_course uuid c =>
      ~ owns_student d school uuid \/ ~ owns_course d school c
  | students_coursework uuid t | students_grade_task uuid t =>
      ~ owns_student d school uuid \/ ~ owns_course_task d school t
  | students_enrollment_create y => ~ owns_school_year d school y
  | students_student_enrollment_create uuid y =>
      ~ owns_student d school uuid \/ ~ owns_school_year d school y
  | teachers_checklist y m dd | teachers_edit_checklist y m dd =>
      exists week_day, date_new y m dd = Returned week_day
                       /\ get_year_for d u week_day = None
  | students_index | students_create | students_grade => False
  end.

Definition is_checklist_route (r : Route) : bool :=
  match r with
  | teachers_checklist _ _ _ => true
  | _ => false
  end.

(** The edit page as rendered when the view does not leave through the
    POST branch. *)
Definition edit_page (request : HttpRequest) (w : World) (sy : SchoolYear)
    (week_day : date) : HttpResponse :=
  render "teachers/edit_checklist.html"
    (<["checklist" := VChecklist (for_school_year (db w) sy)]>
       (<["schedules" :=
            VSchedules (get_schedules (db w) sy
                          (get_local_today (user request))
                          (Week_of week_day))]>
          (<["week" := VWeek (Week_of week_day)]> ∅))).

End Statements.

(* ===================================================================== *)
(** ** A small school to run the views on *)
(* ===================================================================== *)

Module Demo.

(** Stand-ins for the collaborators: a week is its day, a schedule is a
    student with the courses of the student's grade level, a checklist
    form posts the identifiers of the courses to keep. *)
Definition schedules_of (d : Database) (sy : SchoolYear)
  : list (Student * list Course) :=
  flat_map
    (fun e =>
       if enrolled_in d sy e then
         map (fun s =>
                (s, List.filter
                      (fun c => existsb (Z.eqb (enrollment_grade_level e))
                                        (course_grade_levels c))
                      (courses d)))
             (List.filter (fun s => student_id s =? enrollment_student e)
                          (students d))
       else [])
    (enrollments d).

Definition checklist_of (d : Database) (sy : SchoolYear)
  : option Checklist :=
  find (fun c => checklist_school_year c =? school_year_id sy)
       (checklists d).

Definition drop_excluded (d : Database) (sy : SchoolYear)
    (l : list (Student * list Course)) : list (Student * list Course) :=
  match checklist_of d sy with
  | None => l
  | Some cl =>
      map (fun sc =>
             (fst sc,
              List.filter
                (fun c => negb (existsb (Z.eqb (course_id c))
                                        (excluded_courses cl)))
                (snd sc)))
          l
  end.

Definition posted_ok (post : gmap string string) : bool :=
  forallb (fun kv => negb (String.eqb (fst kv) "")
                     && match parse_id (fst kv) with
                        | Some _ => true
                        | None => false
                        end)
          (map_to_list post).

Definition save_checklist (post : gmap string string) (sy : SchoolYear)
    (d : Database) : Database :=
  let kept := omap (fun kv => parse_id (fst kv)) (map_to_list post) in
  let excluded :=
    List.filter (fun k => negb (existsb (Z.eqb k) kept))
                (map course_id (courses d)) in
  {| students := students d; school_years := school_years d;
     grade_levels := grade_levels d; enrollments := enrollments d;
     courses := courses d; course_tasks := course_tasks d;
     courseworks := courseworks d; graded_works := graded_works d;
     grades := grades d;
     checklists :=
       {| checklist_school_year := school_year_id sy;
          excluded_courses := excluded |}
       :: List.filter
            (fun c => negb (checklist_school_year c =? school_year_id sy))
            (checklists d) |}.

#[local] Instance externals : Externals := {|
  Week := date;
  Schedule := Student * list Course;
  get_local_today := fun _ => mkdate 2020 2 10;
  Week_of := fun day => day;
  get_year_for := year_for;
  get_schedules := fun d sy _ _ => schedules_of d sy;
  filter_schedules := drop_excluded;
  for_school_year := checklist_of;
  ChecklistForm_is_valid := fun _ post _ => posted_ok post;
  ChecklistForm_save := save_checklist
|}.

Definition required (post : gmap string string) (field : string)
  : gmap string (list string) :=
  {[ field := ["This field is required."] ]}.

#[local] Instance forms : Forms := {|
  StudentForm_clean := fun post =>
    match post !! "first_name", post !! "last_name" with
    | Some f, Some l => inr (f, l)
    | None, _ => inl (required post "first_name")
    | _, None => inl (required post "last_name")
    end;
  CourseworkForm_clean := fun post =>
    match post !! "completed_date" with
    | Some _ => inr (mkdate 2020 2 10)
    | None => inl (required post "completed_date")
    end;
  GradeForm_clean := fun post =>
    match post !! "score" with
    | Some v => match parse_id v with
                | Some z => inr z
                | None => inl {[ "score" := ["Enter a whole number."] ]}
                end
    | None => inl (required post "score")
    end;
  grade_scores := fun _ => []
|}.

(** School 1 is the user's; school 2 is somebody else's. *)
Definition teacher : User := {| user_id := 1; user_school := 1 |}.

Definition alice : Student :=
  {| student_id := 1; first_name := "Alice"; last_name := "Smith";
     student_school := 1 |}.
Definition bob : Student :=
  {| student_id := 2; first_name := "Bob"; last_name := "Jones";
     student_school := 2 |}.

Definition year_2020 : SchoolYear :=
  {| school_year_id := 10; school_year_school := 1;
     start_date := mkdate 2020 1 1; end_date := mkdate 2020 12 31 |}.
Definition other_year : SchoolYear :=
  {| school_year_id := 20; school_year_school := 2;
     start_date := mkdate 2020 1 1; end_date := mkdate 2020 12 31 |}.

Definition math : Course :=
  {| course_id := 1000; course_grade_levels := [100] |}.
Definition art : Course :=
  {| course_id := 1001; course_grade_levels := [100] |}.

Definition school : Database :=
  {| students := [alice; bob];
     school_years := [year_2020; other_year];
     grade_levels :=
       [ {| grade_level_id := 100; grade_level_school_year := 10 |};
         {| grade_level_id := 200; grade_level_school_year := 20 |} ];
     enrollments :=
       [ {| enrollment_id := 1; enrollment_grade_level := 100;
            enrollment_student := 1 |} ];
     courses := [math; art];
     course_tasks :=
       [ {| course_task_id := 5000; course_task_course := 1000 |} ];
     courseworks :=
       [ {| coursework_id := 1; completed_date := mkdate 2020 2 3;
            coursework_course_task := 5000; coursework_student := 1 |} ];
     graded_works :=
       [ {| graded_work_id := 7000; graded_work_course_task := 5000 |} ];
     grades := [];
     checklists :=
       [ {| checklist_school_year := 10; excluded_courses := [1001] |} ] |}.

Definition world : World := {| db := school; messages := [] |}.

(** The same school before Bob, the student of the other school, was
    added. *)
Definition before_bob : Database := set_students [alice] school.

(** A school year and nothing else: no grade level, no student. *)
Definition empty_year : Database :=
  {| students := []; school_years := [year_2020]; grade_levels := [];
     enrollments := []; courses := []; course_tasks := [];
     courseworks := []; graded_works := []; grades := [];
     checklists := [] |}.

(** The same school as rows of the tables of the migration and of the
    tables it points to. *)
Definition tables : gmap string (list (gmap string Schema.Value)) :=
  {[ "schools.School" := [ {[ "id" := Schema.VInt 1 ]} ];
     "schools.GradeLevel" := [ {[ "id" := Schema.VInt 100 ]} ];
     "courses.CourseTask" := [ {[ "id" := Schema.VInt 5000 ]} ];
     "students.Student" :=
       [ {[ "id" := Schema.VInt 1;
            "first_name" := Schema.VText "Alice";
            "last_name" := Schema.VText "Smith";
            "school" := Schema.VInt 1 ]} ];
     "students.Enrollment" :=
       [ {[ "id" := Schema.VInt 1;
            "grade_level" := Schema.VInt 100;
            "student" := Schema.VInt 1 ]} ];
     "students.Coursework" :=
       [ {[ "id" := Schema.VInt 1;
            "completed_date" := Schema.VDate (mkdate 2020 2 3);
            "course_task" := Schema.VInt 5000;
            "student" := Schema.VInt 1 ]} ] ]}.

(** The two schools, each with its student, as rows. *)
Definition both_schools : gmap string (list (gmap string Schema.Value)) :=
  {[ "schools.School" :=
       [ {[ "id" := Schema.VInt 1 ]}; {[ "id" := Schema.VInt 2 ]} ];
     "schools.GradeLevel" :=
       [ {[ "id" := Schema.VInt 100 ]}; {[ "id" := Schema.VInt 200 ]} ];
     "students.Student" :=
       [ {[ "id" := Schema.VInt 1;
            "first_name" := Schema.VText "Alice";
            "last_name" := Schema.VText "Smith";
            "school" := Schema.VInt 1 ]};
         {[ "id" := Schema.VInt 2;
            "first_name" := Schema.VText "Bob";
            "last_name" := Schema.VText "Jones";
            "school" := Schema.VInt 2 ]} ];
     "students.Enrollment" :=
       [ {[ "id" := Schema.VInt 1;
            "grade_level" := Schema.VInt 100;
            "student" := Schema.VInt 1 ]};
         {[ "id" := Schema.VInt 2;
            "grade_level" := Schema.VInt 200;
            "student" := Schema.VInt 2 ]} ] ]}.

Definition post_request (data : gmap string string) : HttpRequest :=
  {| user := teacher; is_authenticated := true; method := "POST";
     GET := ∅; POST := data |}.

Definition anonymous : HttpRequest :=
  {| user := {| user_id := 0; user_school := 0 |};
     is_authenticated := false; method := "GET"; GET := ∅; POST := ∅ |}.

End Demo.

(* ===================================================================== *)
(** * Theorems *)
(* ===================================================================== *)

(** ** The calendar *)

Lemma check_date_fields_range y m d :
  check_date_fields y m d = true ->
  1 <= y <= 9999 /\ 1 <= m <= 12 /\ 1 <= d <= days_in_month y m.
Proof.
  unfold check_date_fields, MINYEAR, MAXYEAR. intros Hok.
  repeat (apply andb_prop in Hok as [Hok ?]).
  repeat match goal with
         | H : (_ <=? _) = true |- _ => apply Z.leb_le in H
         end.
  lia.
Qed.

Lemma days_in_month_le_31 y m : days_in_month y m <= 31.
Proof.
  unfold days_in_month.
  destruct (m =? 2); [destruct (is_leap y); lia|].
  destruct ((m =? 4) || (m =? 6) || (m =? 9) || (m =? 11)); lia.
Qed.

Lemma fits_c_int_range z :
  -2147483648 <= z <= 2147483647 -> fits_c_int z = true.
Proof.
  intros Hz. unfold fits_c_int.
  apply andb_true_intro. split; apply Z.leb_le; lia.
Qed.

(** A date of the calendar fits C integers. *)
Lemma check_date_fields_fits y m d :
  check_date_fields y m d = true ->
  fits_c_int y && fits_c_int m && fits_c_int d = true.
Proof.
  intros Hok. apply check_date_fields_range in Hok.
  pose proof (days_in_month_le_31 y m).
  rewrite !fits_c_int_range by lia. reflexivity.
Qed.

Lemma date_new_valid y m d :
  check_date_fields y m d = true -> date_new y m d = Returned (mkdate y m d).
Proof.
  intros Hok. unfold date_new.
  now rewrite (check_date_fields_fits _ _ _ Hok), Hok.
Qed.

Lemma date_new_invalid y m d :
  check_date_fields y m d = false ->
  date_new y m d = Raised (date_error y m d).
Proof.
  intros Hko. unfold date_new, date_error. rewrite Hko.
  now destruct (fits_c_int y && fits_c_int m && fits_c_int d).
Qed.

Lemma date_new_inv y m d day :
  date_new y m d = Returned day ->
  check_date_fields y m d = true /\ day = mkdate y m d.
Proof.
  unfold date_new.
  destruct (negb (fits_c_int y && fits_c_int m && fits_c_int d));
    [discriminate|].
  destruct (check_date_fields y m d); [|discriminate].
  intros [= <-]. split; reflexivity.
Qed.

Example month_13_is_no_date : check_date_fields 2020 13 1 = false.
Proof. reflexivity. Qed.

Example day_32_is_no_date : check_date_fields 2020 1 32 = false.
Proof. reflexivity. Qed.

Example leap_day : check_date_fields 2020 2 29 = true
                   /\ check_date_fields 2019 2 29 = false
                   /\ check_date_fields 1900 2 29 = false
                   /\ check_date_fields 2000 2 29 = true.
Proof. repeat split; reflexivity. Qed.

(** ** The access check before a view *)

Section GateFacts.
Context `{E : Externals} `{F : Forms}.

Lemma resolve_not_exempt r : denied_exempt (resolve r) = false.
Proof. destruct r; reflexivity. Qed.

Lemma resolve_authorizer r :
  denied_authorizer (resolve r) = Some any_authorized.
Proof. destruct r; reflexivity. Qed.

(** An authenticated request reaches the view of its route. *)
Lemma handle_authenticated r request :
  is_authenticated request = true ->
  handle r request = view_body (resolve r) request.
Proof.
  intros Hauth. unfold handle, process_view.
  rewrite resolve_not_exempt, Hauth, resolve_authorizer. reflexivity.
Qed.

Lemma handle_checklist request y m d :
  is_authenticated request = true ->
  handle (teachers_checklist y m d) request = checklist request y m d.
Proof. intros Hauth. now rewrite handle_authenticated. Qed.

Lemma handle_edit_checklist request y m d :
  is_authenticated request = true ->
  handle (teachers_edit_checklist y m d) request
  = edit_checklist request y m d.
Proof. intros Hauth. now rewrite handle_authenticated. Qed.

End GateFacts.

(** ** The teacher views *)

Section TeachersFacts.
Context `{E : Externals}.

(** The checklist page, step by step, once the date is a date. *)
Lemma checklist_on_date request y m d w week_day :
  date_new y m d = Returned week_day ->
  checklist request y m d w
  = (Returned
       (render "teachers/checklist.html"
          (<["schedules" :=
               VSchedules
                 match get_year_for (db w) (user request) week_day with
                 | Some sy =>
                     filter_schedules (db w) sy
                       (get_schedules (db w) sy
                          (get_local_today (user request))
                          (Week_of week_day))
                 | None => []
                 end]>
             (<["week" := VWeek (Week_of week_day)]> ∅))),
     w).
Proof.
  intros Hdate. unfold checklist, bind, lift, gets, ret. rewrite Hdate.
  destruct (get_year_for (db w) (user request) week_day); reflexivity.
Qed.

Lemma checklist_raises request y m d w e :
  date_new y m d = Raised e ->
  checklist request y m d w = (Raised e, w).
Proof.
  intros Hdate. unfold checklist, bind, lift. now rewrite Hdate.
Qed.

Lemma edit_checklist_raises request y m d w e :
  date_new y m d = Raised e ->
  edit_checklist request y m d w = (Raised e, w).
Proof.
  intros Hdate. unfold edit_checklist, bind, lift. now rewrite Hdate.
Qed.

Lemma edit_checklist_no_year request y m d w week_day :
  date_new y m d = Returned week_day ->
  get_year_for (db w) (user request) week_day = None ->
  edit_checklist request y m d w = (Returned HttpResponseNotFound, w).
Proof.
  intros Hdate Hnone. unfold edit_checklist, bind, lift, gets, ret.
  rewrite Hdate, Hnone. reflexivity.
Qed.

Lemma edit_checklist_get request y m d w week_day sy :
  date_new y m d = Returned week_day ->
  get_year_for (db w) (user request) week_day = Some sy ->
  String.eqb (method request) "POST" = false ->
  edit_checklist request y m d w
  = (Returned (edit_page request w sy week_day), w).
Proof.
  intros Hdate Hyear Hget.
  unfold edit_checklist, edit_checklist_post, bind, lift, gets, ret.
  rewrite Hdate, Hyear, Hget. reflexivity.
Qed.

Lemma edit_checklist_invalid_post request y m d w week_day sy :
  date_new y m d = Returned week_day ->
  get_year_for (db w) (user request) week_day = Some sy ->
  String.eqb (method request) "POST" = true ->
  ChecklistForm_is_valid (db w) (POST request) sy = false ->
  edit_checklist request y m d w
  = (Returned (edit_page request w sy week_day), w).
Proof.
  intros Hdate Hyear Hpost Hbad.
  unfold edit_checklist, edit_checklist_post, bind, lift, gets, ret.
  rewrite Hdate, Hyear, Hpost, Hbad. reflexivity.
Qed.

Lemma edit_checklist_valid_post request y m d w week_day sy :
  date_new y m d = Returned week_day ->
  get_year_for (db w) (user request) week_day = Some sy ->
  String.eqb (method request) "POST" = true ->
  ChecklistForm_is_valid (db w) (POST request) sy = true ->
  edit_checklist request y m d w
  = (Returned (redirect (resolve_url "teachers:checklist"
                           [("year", y); ("month", m); ("day", d)])),
     with_db (ChecklistForm_save (POST request) sy) w).
Proof.
  intros Hdate Hyear Hpost Hok.
  unfold edit_checklist, edit_checklist_post, bind, lift, gets, ret, modify.
  rewrite Hdate, Hyear, Hpost, Hok. reflexivity.
Qed.

End TeachersFacts.

Section TeachersClaims.
Context `{E : Externals} `{F : Forms}.

(** C8.  For a week date that none of the user's school years covers, the
    two teacher routes answer differently: [teachers:checklist] renders its
    page (HTTP 200) with an empty list of schedules, and
    [teachers:edit_checklist] answers HTTP 404.  Neither changes the
    datastore. *)
Theorem teacher_views_disagree_without_school_year
    (request : HttpRequest) (y m d : Z) (w : World) (week_day : date) :
  is_authenticated request = true ->
  date_new y m d = Returned week_day ->
  get_year_for (db w) (user request) week_day = None ->
  let page :=
    render "teachers/checklist.html"
      (<["schedules" := VSchedules []]>
         (<["week" := VWeek (Week_of week_day)]> ∅)) in
  handle (teachers_checklist y m d) request w = (Returned page, w)
  /\ status_code page = 200
  /\ context_of page !! "schedules" = Some (VSchedules [])
  /\ handle (teachers_edit_checklist y m d) request w
     = (Returned HttpResponseNotFound, w)
  /\ status_code HttpResponseNotFound = 404.
Proof.
  intros Hauth Hdate Hnone page.
  rewrite handle_checklist, handle_edit_checklist by exact Hauth.
  rewrite (checklist_on_date _ _ _ _ _ _ Hdate), Hnone.
  rewrite (edit_checklist_no_year _ _ _ _ _ _ Hdate Hnone).
  repeat split; reflexivity.
Qed.

(** C9.  Within a school year, [teachers:checklist] renders the schedules
    of [school_year.get_schedules] after [Checklist.filter_schedules] has
    gone over them, and [teachers:edit_checklist], whenever it renders its
    page (any request but a POST of a valid form, which redirects), renders
    the very list that [school_year.get_schedules] returned: every schedule
    of that list, with the courses the checklist excludes, is on the edit
    page. *)
Theorem exclusions_only_in_read_view
    (request : HttpRequest) (y m d : Z) (w : World) (week_day : date)
    (sy : SchoolYear) :
  is_authenticated request = true ->
  date_new y m d = Returned week_day ->
  get_year_for (db w) (user request) week_day = Some sy ->
  String.eqb (method request) "POST"
  && ChecklistForm_is_valid (db w) (POST request) sy = false ->
  let unfiltered :=
    get_schedules (db w) sy (get_local_today (user request))
      (Week_of week_day) in
  (exists page,
      handle (teachers_checklist y m d) request w = (Returned page, w)
      /\ context_of page !! "schedules"
         = Some (VSchedules (filter_schedules (db w) sy unfiltered)))
  /\ (exists page,
         handle (teachers_edit_checklist y m d) request w
         = (Returned page, w)
         /\ context_of page !! "schedules" = Some (VSchedules unfiltered)).
Proof.
  intros Hauth Hdate Hyear Hget unfiltered.
  rewrite handle_checklist, handle_edit_checklist by exact Hauth.
  split.
  - eexists. split.
    + rewrite (checklist_on_date _ _ _ _ _ _ Hdate), Hyear. reflexivity.
    + reflexivity.
  - exists (edit_page request w sy week_day). split; [|reflexivity].
    destruct (String.eqb (method request) "POST") eqn:Hmethod.
    + apply (edit_checklist_invalid_post _ _ _ _ _ _ _
               Hdate Hyear Hmethod Hget).
    + apply (edit_checklist_get _ _ _ _ _ _ _ Hdate Hyear Hmethod).
Qed.

(** C10.  The two teacher handlers return a response exactly on the
    (year, month, day) triples that [datetime.date] accepts: on such a
    triple each of them returns an [HttpResponse], and on any other triple
    each of them ends with the exception of [datetime.date] (a
    [ValueError], or an [OverflowError] when a component does not fit a C
    integer), with no response and the datastore untouched. *)
Theorem teacher_views_total_on_valid_dates
    (request : HttpRequest) (y m d : Z) (w : World) :
  if check_date_fields y m d then
    (exists response,
        checklist request y m d w = (Returned response, w))
    /\ (exists response w',
           edit_checklist request y m d w = (Returned response, w'))
  else
    checklist request y m d w = (Raised (date_error y m d), w)
    /\ edit_checklist request y m d w = (Raised (date_error y m d), w).
Proof.
  destruct (check_date_fields y m d) eqn:Hcheck.
  - pose proof (date_new_valid _ _ _ Hcheck) as Hdate. split.
    + eexists. apply (checklist_on_date _ _ _ _ _ _ Hdate).
    + destruct (get_year_for (db w) (user request) (mkdate y m d))
        as [sy|] eqn:Hyear.
      * destruct (String.eqb (method request) "POST") eqn:Hmethod.
        -- destruct (ChecklistForm_is_valid (db w) (POST request) sy)
             eqn:Hvalid.
           ++ do 2 eexists.
              apply (edit_checklist_valid_post _ _ _ _ _ _ _
                       Hdate Hyear Hmethod Hvalid).
           ++ do 2 eexists.
              apply (edit_checklist_invalid_post _ _ _ _ _ _ _
                       Hdate Hyear Hmethod Hvalid).
        -- do 2 eexists.
           apply (edit_checklist_get _ _ _ _ _ _ _ Hdate Hyear Hmethod).
      * do 2 eexists. apply (edit_checklist_no_year _ _ _ _ _ _ Hdate Hyear).
  - pose proof (date_new_invalid _ _ _ Hcheck) as Hdate. split.
    + apply (checklist_raises _ _ _ _ _ _ Hdate).
    + apply (edit_checklist_raises _ _ _ _ _ _ Hdate).
Qed.

End TeachersClaims.

(** The disagreement at 10 February 2019, which the demo school's only
    year (2020) does not cover. *)
Lemma teacher_views_disagree_witness :
  let page :=
    render (E := Demo.externals) "teachers/checklist.html"
      (<["schedules" := VSchedules []]>
         (<["week" :=
              VWeek (@Week_of Demo.externals (mkdate 2019 2 10))]> ∅))
  in
  handle (E := Demo.externals) (F := Demo.forms)
    (teachers_checklist 2019 2 10) (get_request Demo.teacher) Demo.world
  = (Returned page, Demo.world)
  /\ status_code page = 200
  /\ context_of page !! "schedules" = Some (VSchedules [])
  /\ handle (E := Demo.externals) (F := Demo.forms)
       (teachers_edit_checklist 2019 2 10) (get_request Demo.teacher)
       Demo.world
     = (Returned HttpResponseNotFound, Demo.world)
  /\ status_code (E := Demo.externals) HttpResponseNotFound = 404.
Proof.
  apply (teacher_views_disagree_without_school_year
           (E := Demo.externals) (F := Demo.forms)
           (get_request Demo.teacher) 2019 2 10 Demo.world
           (mkdate 2019 2 10));
    reflexivity.
Defined.

(** The art course is excluded by the demo checklist: it is gone from the
    checklist page and still on the edit page. *)
Lemma exclusions_only_in_read_view_witness :
  (exists page,
      handle (E := Demo.externals) (F := Demo.forms)
        (teachers_checklist 2020 2 10) (get_request Demo.teacher) Demo.world
      = (Returned page, Demo.world)
      /\ context_of page !! "schedules"
         = Some (@VSchedules Demo.externals [(Demo.alice, [Demo.math])]))
  /\ (exists page,
         handle (E := Demo.externals) (F := Demo.forms)
           (teachers_edit_checklist 2020 2 10) (get_request Demo.teacher)
           Demo.world
         = (Returned page, Demo.world)
         /\ context_of page !! "schedules"
            = Some (@VSchedules Demo.externals
                      [(Demo.alice, [Demo.math; Demo.art])])).
Proof.
  apply (exclusions_only_in_read_view
           (E := Demo.externals) (F := Demo.forms)
           (get_request Demo.teacher) 2020 2 10 Demo.world
           (mkdate 2020 2 10) Demo.year_2020);
    reflexivity.
Defined.

(** ** Access: the login gate and the 404 answers *)

Section AccessClaims.
Context `{E : Externals} `{F : Forms}.

(** C3.  On every route, a request that is not authenticated is answered
    by the redirect to the login page, whatever the datastore holds; the
    view of the route does not run, so the datastore and the messages stay
    as they were. *)
Theorem authentication_required (r : Route) (request : HttpRequest)
    (w : World) :
  is_authenticated request = false ->
  handle r request w = (Returned (redirect (LoginUrl (url_of r))), w).
Proof.
  intros Hanon. unfold handle, process_view.
  rewrite resolve_not_exempt, Hanon. reflexivity.
Qed.

Ltac run_view :=
  cbn [view_body resolve authorize checklist_view edit_checklist_view];
  unfold course, coursework, grade_task, enrollment_create,
    student_enrollment_create, bind, gets, ret.

Lemma course_404 request uuid c w :
  get_student (db w) (user_school (user request)) uuid = None
  \/ get_course (db w) (user_school (user request)) c = None ->
  course request uuid c w = (Returned HttpResponseNotFound, w).
Proof.
  intros Hmiss. run_view.
  destruct (get_student _ _ uuid); destruct (get_course _ _ c);
    try reflexivity; destruct Hmiss; discriminate.
Qed.

Lemma coursework_404 request uuid t w :
  get_student (db w) (user_school (user request)) uuid = None
  \/ get_course_task (db w) (user_school (user request)) t = None ->
  coursework request uuid t w = (Returned HttpResponseNotFound, w).
Proof.
  intros Hmiss. run_view.
  destruct (get_student _ _ uuid); destruct (get_course_task _ _ t);
    try reflexivity; destruct Hmiss; discriminate.
Qed.

Lemma grade_task_404 request uuid t w :
  get_student (db w) (user_school (user request)) uuid = None
  \/ get_course_task (db w) (user_school (user request)) t = None ->
  grade_task request uuid t w = (Returned HttpResponseNotFound, w).
Proof.
  intros Hmiss. run_view.
  destruct (get_student _ _ uuid); destruct (get_course_task _ _ t);
    try reflexivity; destruct Hmiss; discriminate.
Qed.

Lemma enrollment_create_404 request y w :
  get_school_year (db w) (user_school (user request)) y = None ->
  enrollment_create request y w = (Returned HttpResponseNotFound, w).
Proof. intros Hmiss. run_view. now rewrite Hmiss. Qed.

Lemma student_enrollment_create_404 request uuid y w :
  get_student (db w) (user_school (user request)) uuid = None
  \/ get_school_year (db w) (user_school (user request)) y = None ->
  student_enrollment_create request uuid y w
  = (Returned HttpResponseNotFound, w).
Proof.
  intros Hmiss. run_view.
  destruct (get_student _ _ uuid); destruct (get_school_year _ _ y);
    try reflexivity; destruct Hmiss; discriminate.
Qed.

(** A lookup within a school finds a row only if the school owns one. *)
Lemma get_student_owned d school uuid s :
  get_student d school uuid = Some s -> owns_student d school uuid.
Proof.
  unfold get_student. intros Hfind.
  apply find_some in Hfind as [Hin Hpred].
  apply andb_prop in Hpred as [Hid Hschool].
  exists s. split; [exact Hin|]. split; now apply Z.eqb_eq.
Qed.

Lemma get_school_year_owned d school uuid sy :
  get_school_year d school uuid = Some sy -> owns_school_year d school uuid.
Proof.
  unfold get_school_year. intros Hfind.
  apply find_some in Hfind as [Hin Hpred].
  apply andb_prop in Hpred as [Hid Hschool].
  exists sy. split; [exact Hin|]. split; now apply Z.eqb_eq.
Qed.

Lemma grade_level_in_school_owned d school gl_id :
  grade_level_in_school d school gl_id = true ->
  owns_grade_level d school gl_id.
Proof.
  unfold grade_level_in_school. intros Hex.
  apply existsb_exists in Hex as (gl & Hgl & Hpred).
  apply andb_prop in Hpred as [Hid Hyear].
  apply existsb_exists in Hyear as (sy & Hsy & Hpred).
  apply andb_prop in Hpred as [Hsyid Hschool].
  exists gl. split; [exact Hgl|]. split; [now apply Z.eqb_eq|].
  exists sy. split; [exact Hsy|]. split; now apply Z.eqb_eq.
Qed.

Lemma course_in_school_owned d school c :
  In c (courses d) -> course_in_school d school c = true ->
  owns_course d school (course_id c).
Proof.
  unfold course_in_school. intros Hc Hex.
  apply existsb_exists in Hex as (gl_id & Hgl & Hin).
  exists c. split; [exact Hc|]. split; [reflexivity|].
  exists gl_id. split; [exact Hgl|].
  now apply grade_level_in_school_owned.
Qed.

Lemma get_course_owned d school uuid c :
  get_course d school uuid = Some c -> owns_course d school uuid.
Proof.
  unfold get_course. intros Hfind.
  apply find_some in Hfind as [Hin Hpred].
  apply andb_prop in Hpred as [Hid Hschool].
  apply Z.eqb_eq in Hid. subst uuid.
  now apply course_in_school_owned.
Qed.

Lemma task_in_school_owned d school task_id :
  task_in_school d school task_id = true ->
  owns_course_task d school task_id.
Proof.
  unfold task_in_school. intros Hex.
  apply existsb_exists in Hex as (t & Ht & Hpred).
  apply andb_prop in Hpred as [Hid Hcourse].
  apply existsb_exists in Hcourse as (c & Hc & Hpred).
  apply andb_prop in Hpred as [Hcid Hschool].
  exists t. split; [exact Ht|]. split; [now apply Z.eqb_eq|].
  apply Z.eqb_eq in Hcid. rewrite <- Hcid.
  now apply course_in_school_owned.
Qed.

Lemma get_course_task_owned d school uuid t :
  get_course_task d school uuid = Some t -> owns_course_task d school uuid.
Proof.
  unfold get_course_task. intros Hfind.
  apply find_some in Hfind as [Hin Hpred].
  apply andb_prop in Hpred as [Hid Hschool].
  apply Z.eqb_eq in Hid. subst uuid.
  now apply task_in_school_owned.
Qed.

Lemma not_owned_student d school uuid :
  ~ owns_student d school uuid -> get_student d school uuid = None.
Proof.
  intros Hnot. destruct (get_student d school uuid) as [s|] eqn:Hget;
    [|reflexivity].
  exfalso. exact (Hnot (get_student_owned _ _ _ _ Hget)).
Qed.

Lemma not_owned_school_year d school uuid :
  ~ owns_school_year d school uuid -> get_school_year d school uuid = None.
Proof.
  intros Hnot. destruct (get_school_year d school uuid) as [sy|] eqn:Hget;
    [|reflexivity].
  exfalso. exact (Hnot (get_school_year_owned _ _ _ _ Hget)).
Qed.

Lemma not_owned_course d school uuid :
  ~ owns_course d school uuid -> get_course d school uuid = None.
Proof.
  intros Hnot. destruct (get_course d school uuid) as [c|] eqn:Hget;
    [|reflexivity].
  exfalso. exact (Hnot (get_course_owned _ _ _ _ Hget)).
Qed.

Lemma not_owned_course_task d school uuid :
  ~ owns_course_task d school uuid -> get_course_task d school uuid = None.
Proof.
  intros Hnot. destruct (get_course_task d school uuid) as [t|] eqn:Hget;
    [|reflexivity].
  exfalso. exact (Hnot (get_course_task_owned _ _ _ _ Hget)).
Qed.

(** C2, as the code has it.  An authenticated request that names a
    student, course, course task or school year of which the user's school
    owns none (no row has that key, or every row that has it belongs to
    another school) is answered with HTTP 404, and so is
    [teachers:edit_checklist] for a date that no school year of the user
    covers.  [teachers:checklist] is the exception: for such a date it
    renders its page, HTTP 200, with no schedules.  In each case the
    datastore is left as it was. *)
Theorem missing_reference_answers (r : Route) (request : HttpRequest)
    (w : World) :
  is_authenticated request = true ->
  references_missing_resource (db w) (user request) r ->
  if is_checklist_route r then
    exists page,
      handle r request w = (Returned page, w)
      /\ status_code page = 200
      /\ context_of page !! "schedules" = Some (VSchedules [])
  else
    handle r request w = (Returned HttpResponseNotFound, w)
    /\ status_code HttpResponseNotFound = 404.
Proof.
  intros Hauth Hmiss. rewrite (handle_authenticated _ _ Hauth).
  destruct r; cbn [is_checklist_route] in *;
    cbn [references_missing_resource] in Hmiss;
    cbn [view_body resolve authorize checklist_view edit_checklist_view].
  - contradiction.
  - contradiction.
  - split; [|reflexivity]. apply course_404.
    destruct Hmiss as [Hs | Hc];
      [left; now apply not_owned_student
      | right; now apply not_owned_course].
  - split; [|reflexivity]. apply coursework_404.
    destruct Hmiss as [Hs | Ht];
      [left; now apply not_owned_student
      | right; now apply not_owned_course_task].
  - split; [|reflexivity]. apply grade_task_404.
    destruct Hmiss as [Hs | Ht];
      [left; now apply not_owned_student
      | right; now apply not_owned_course_task].
  - contradiction.
  - split; [|reflexivity]. apply enrollment_create_404.
    now apply not_owned_school_year.
  - split; [|reflexivity]. apply student_enrollment_create_404.
    destruct Hmiss as [Hs | Hy];
      [left; now apply not_owned_student
      | right; now apply not_owned_school_year].
  - destruct Hmiss as (week_day & Hdate & Hnone).
    eexists. rewrite (checklist_on_date _ _ _ _ _ _ Hdate), Hnone.
    repeat split; reflexivity.
  - destruct Hmiss as (week_day & Hdate & Hnone).
    split; [now apply (edit_checklist_no_year _ _ _ _ _ _ Hdate) | reflexivity].
Qed.

End AccessClaims.

Lemma authentication_required_witness :
  handle (E := Demo.externals) (F := Demo.forms)
    (students_student_enrollment_create 1 10) Demo.anonymous Demo.world
  = (Returned
       (redirect
          (LoginUrl
             (Reverse "students:student_enrollment_create"
                [("uuid", 1); ("school_year_uuid", 10)]))),
     Demo.world).
Proof.
  apply (authentication_required (E := Demo.externals) (F := Demo.forms)
           (students_student_enrollment_create 1 10) Demo.anonymous
           Demo.world).
  reflexivity.
Defined.

(** C2 as it is written fails at [teachers:checklist]: the teacher of the
    demo school asks for 10 February 2019, which none of the school's years
    covers, and gets the page (HTTP 200), not HTTP 404. *)
Lemma checklist_missing_year_is_not_404 :
  is_authenticated (get_request Demo.teacher) = true
  /\ references_missing_resource (E := Demo.externals)
       Demo.school Demo.teacher (teachers_checklist 2019 2 10)
  /\ exists page,
       handle (E := Demo.externals) (F := Demo.forms)
         (teachers_checklist 2019 2 10) (get_request Demo.teacher)
         Demo.world
       = (Returned page, Demo.world)
       /\ status_code page = 200
       /\ page <> HttpResponseNotFound.
Proof.
  split; [reflexivity|]. split.
  - exists (mkdate 2019 2 10). split; reflexivity.
  - exists (render "teachers/checklist.html"
              (<["schedules" := VSchedules []]>
                 (<["week" := @VWeek Demo.externals (mkdate 2019 2 10)]> ∅))).
    split; [reflexivity|]. split; [reflexivity | discriminate].
Qed.

(** The demo teacher (school 1) asks for the course page of Bob, a
    student of school 2; for an enrollment page of the school year of
    school 2; for the coursework page of a task that is not there; and for
    the edit page of a date outside every school year. *)
Lemma missing_reference_answers_witness :
  (handle (E := Demo.externals) (F := Demo.forms)
     (students_course 2 1000) (get_request Demo.teacher) Demo.world
   = (Returned HttpResponseNotFound, Demo.world)
   /\ status_code (E := Demo.externals) HttpResponseNotFound = 404)
  /\ (handle (E := Demo.externals) (F := Demo.forms)
        (students_enrollment_create 20) (get_request Demo.teacher)
        Demo.world
      = (Returned HttpResponseNotFound, Demo.world)
      /\ status_code (E := Demo.externals) HttpResponseNotFound = 404)
  /\ (handle (E := Demo.externals) (F := Demo.forms)
        (students_coursework 1 9999) (get_request Demo.teacher)
        Demo.world
      = (Returned HttpResponseNotFound, Demo.world)
      /\ status_code (E := Demo.externals) HttpResponseNotFound = 404)
  /\ (handle (E := Demo.externals) (F := Demo.forms)
        (teachers_edit_checklist 2019 2 10) (get_request Demo.teacher)
        Demo.world
      = (Returned HttpResponseNotFound, Demo.world)
      /\ status_code (E := Demo.externals) HttpResponseNotFound = 404).
Proof.
  split; [|split; [|split]].
  - apply (missing_reference_answers (E := Demo.externals)
             (F := Demo.forms) (students_course 2 1000)
             (get_request Demo.teacher) Demo.world); [reflexivity|].
    left. intros (s & Hin & Hid & Hschool).
    destruct Hin as [<- | [<- | Hnil]];
      [discriminate Hid | discriminate Hschool | destruct Hnil].
  - apply (missing_reference_answers (E := Demo.externals)
             (F := Demo.forms) (students_enrollment_create 20)
             (get_request Demo.teacher) Demo.world); [reflexivity|].
    intros (sy & Hin & Hid & Hschool).
    destruct Hin as [<- | [<- | Hnil]];
      [discriminate Hid | discriminate Hschool | destruct Hnil].
  - apply (missing_reference_answers (E := Demo.externals)
             (F := Demo.forms) (students_coursework 1 9999)
             (get_request Demo.teacher) Demo.world); [reflexivity|].
    right. intros (t & Hin & Hid & _).
    destruct Hin as [<- | Hnil]; [discriminate Hid | destruct Hnil].
  - apply (missing_reference_answers (E := Demo.externals)
             (F := Demo.forms) (teachers_edit_checklist 2019 2 10)
             (get_request Demo.teacher) Demo.world); [reflexivity|].
    exists (mkdate 2019 2 10). split; reflexivity.
Defined.

(** ** Enrollment: workflow redirects and form errors *)

(** A student can only be enrolled in a school year that has a grade
    level. *)
Lemma get_enrollment_grade_level d sy s e :
  get_enrollment d sy s = Some e -> grade_levels_of d sy <> [].
Proof.
  unfold get_enrollment. intros Hfind.
  apply find_some in Hfind as [_ Hpred].
  apply andb_prop in Hpred as [_ Hin].
  unfold enrolled_in in Hin. apply existsb_exists in Hin as (gl & Hgl & Hsy).
  apply andb_prop in Hsy as [_ Hsy].
  assert (In gl (grade_levels_of d sy)) as Hmem.
  { unfold grade_levels_of. apply filter_In. split; assumption. }
  intros Hnil. rewrite Hnil in Hmem. exact Hmem.
Qed.

Lemma all_enrolled_grade_level d school sy :
  students_of d school <> [] ->
  enrollable_students d school sy = [] ->
  grade_levels_of d sy <> [].
Proof.
  unfold enrollable_students.
  destruct (students_of d school) as [|s rest]; [congruence|].
  intros _ Hnone. cbn [List.filter] in Hnone.
  destruct (get_enrollment d sy s) as [e|] eqn:He; [|discriminate].
  exact (get_enrollment_grade_level _ _ _ _ He).
Qed.

Section EnrollmentClaims.
Context `{E : Externals} `{F : Forms}.

(** C4, as the code has it.  A GET of [students:enrollment_create] for a
    school year of the user is answered with a redirect (HTTP 302) and one
    flash message in each of these states, looked at in this order: no
    grade level in the school year: to the grade level creation page; some
    grade level and no student in the school: to [students:index]; some
    student and every student enrolled in the school year: to the school
    year's page. *)
Theorem enrollment_create_redirects (request : HttpRequest) (y : Z)
    (w : World) (sy : SchoolYear) :
  is_authenticated request = true ->
  is_post request = false ->
  get_school_year (db w) (user_school (user request)) y = Some sy ->
  let school := user_school (user request) in
  let answer := handle (students_enrollment_create y) request w in
  (grade_levels_of (db w) sy = [] ->
   answer
   = (Returned (redirect (Reverse "schools:grade_level_create"
                            [("uuid", school_year_id sy)])),
      add_message
        "You need to create a grade level for a student to enroll in." w))
  /\ (grade_levels_of (db w) sy <> [] ->
      students_of (db w) school = [] ->
      answer
      = (Returned (redirect (Reverse "students:index" [])),
         add_message "You need to add a student to enroll." w))
  /\ (students_of (db w) school <> [] ->
      enrollable_students (db w) school sy = [] ->
      answer
      = (Returned (redirect (Reverse "schools:school_year_detail"
                               [("uuid", school_year_id sy)])),
         add_message "All students are enrolled in the school year." w))
  /\ (forall to, status_code (redirect to) = 302).
Proof.
  intros Hauth Hget Hyear school answer. subst answer school.
  rewrite (handle_authenticated _ _ Hauth).
  cbn [view_body resolve authorize].
  unfold enrollment_create, bind, gets, ret, modify.
  rewrite Hyear, Hget.
  repeat split.
  - intros Hgl. rewrite Hgl. reflexivity.
  - intros Hgl Hst.
    destruct (grade_levels_of (db w) sy); [congruence|].
    rewrite Hst. reflexivity.
  - intros Hst Hall.
    pose proof (all_enrolled_grade_level _ _ _ Hst Hall) as Hgl.
    destruct (grade_levels_of (db w) sy); [congruence|].
    destruct (students_of (db w) (user_school (user request)));
      [congruence|].
    rewrite Hall. reflexivity.
Qed.

End EnrollmentClaims.

(** C4 as it is written fails where its cases overlap: in a school year
    with no grade level and a school with no student, the state of
    [test_no_grade_levels], "no students" holds and the answer is the
    redirect to the grade level creation page, not to [students:index]. *)
Lemma no_students_and_no_grade_levels :
  let w := {| db := Demo.empty_year; messages := [] |} in
  let answer :=
    handle (E := Demo.externals) (F := Demo.forms)
      (students_enrollment_create 10) (get_request Demo.teacher) w in
  students_of Demo.empty_year (user_school Demo.teacher) = []
  /\ answer
     = (Returned (redirect (Reverse "schools:grade_level_create"
                              [("uuid", 10)])),
        add_message
          "You need to create a grade level for a student to enroll in." w)
  /\ answer
     <> (Returned (redirect (Reverse "students:index" [])),
         add_message "You need to add a student to enroll." w).
Proof.
  split; [reflexivity|]. split; [reflexivity|]. vm_compute. discriminate.
Qed.

Lemma enrollment_create_redirects_witness :
  handle (E := Demo.externals) (F := Demo.forms)
    (students_enrollment_create 10) (get_request Demo.teacher) Demo.world
  = (Returned (redirect (Reverse "schools:school_year_detail"
                           [("uuid", 10)])),
     add_message "All students are enrolled in the school year." Demo.world).
Proof.
  refine (proj1 (proj2 (proj2
    (enrollment_create_redirects (E := Demo.externals) (F := Demo.forms)
       (get_request Demo.teacher) 10 Demo.world Demo.year_2020
       _ _ _))) _ _);
    [reflexivity | reflexivity | reflexivity | discriminate | reflexivity].
Defined.

(** The non-field errors of the enrollment form. *)
Lemma EnrollmentForm_foreign_student d u data s gl :
  choice_field student_id (students d) data "student" = inr s ->
  choice_field grade_level_id (grade_levels d) data "grade_level" = inr gl ->
  student_school s <> user_school u ->
  exists errors rest,
    EnrollmentForm_clean d u data = inl errors
    /\ errors !! "__all__" = Some ("You may not enroll that student." :: rest).
Proof.
  intros Hs Hgl Hforeign. unfold EnrollmentForm_clean. rewrite Hs, Hgl.
  destruct (student_school s =? user_school u) eqn:Hsame;
    [apply Z.eqb_eq in Hsame; contradiction|].
  cbn [app]. eexists _, _. split; [reflexivity|].
  apply lookup_singleton_eq.
Qed.

Lemma EnrollmentForm_foreign_grade_level d u data s gl :
  choice_field student_id (students d) data "student" = inr s ->
  choice_field grade_level_id (grade_levels d) data "grade_level" = inr gl ->
  grade_level_in_school d (user_school u) (grade_level_id gl) = false ->
  exists errors msgs,
    EnrollmentForm_clean d u data = inl errors
    /\ errors !! "__all__" = Some msgs
    /\ In "You may not enroll to that grade level." msgs.
Proof.
  intros Hs Hgl Hforeign. unfold EnrollmentForm_clean.
  rewrite Hs, Hgl, Hforeign.
  destruct (student_school s =? user_school u); cbn [app].
  - eexists _, _. split; [reflexivity|].
    split; [apply lookup_singleton_eq | left; reflexivity].
  - eexists _, _. split; [reflexivity|].
    split; [apply lookup_singleton_eq | right; left; reflexivity].
Qed.

Section FormClaims.
Context `{E : Externals} `{F : Forms}.

Ltac enter_view Hauth :=
  rewrite (handle_authenticated _ _ Hauth);
  cbn [view_body resolve authorize checklist_view edit_checklist_view].

Lemma form_invalid_context template context data errors :
  status_code (form_invalid template context data errors) = 200
  /\ context_of (form_invalid template context data errors) !! "form"
     = Some (VForm {| form_data := data; form_errors := errors |}).
Proof. split; [reflexivity|]. apply lookup_insert_eq. Qed.

Lemma edit_page_context request w sy week_day :
  status_code (edit_page request w sy week_day) = 200
  /\ context_of (edit_page request w sy week_day) !! "form" = None
  /\ dom (context_of (edit_page request w sy week_day))
     = {["checklist"; "schedules"; "week"]}.
Proof.
  split; [reflexivity|]. split.
  - unfold edit_page, render, context_of.
    rewrite !lookup_insert_ne by discriminate. apply lookup_empty.
  - unfold edit_page, render, context_of.
    rewrite !dom_insert_L, dom_empty_L. set_solver.
Qed.

(** C5, as the code has it.  A POST whose form does not validate changes
    nothing in the datastore and is answered by the page again, HTTP 200.
    On the students pages (enrollment, student, coursework and grade
    forms) the context of that page holds the submitted form with its
    errors under ["form"]; the enrollment form of a student of another
    school carries "You may not enroll that student." and that of a grade
    level of another school "You may not enroll to that grade level.".
    On [teachers:edit_checklist] the page is the edit page with its
    checklist, schedules and week, and no form in its context. *)
Theorem invalid_post_renders_again (request : HttpRequest) (w : World) :
  is_authenticated request = true ->
  is_post request = true ->
  let u := user request in
  let data := POST request in
  (forall uuid y student sy errors,
      get_student (db w) (user_school u) uuid = Some student ->
      get_school_year (db w) (user_school u) y = Some sy ->
      EnrollmentForm_clean (db w) u data = inl errors ->
      exists page,
        handle (students_student_enrollment_create uuid y) request w
        = (Returned page, w)
        /\ status_code page = 200
        /\ context_of page !! "form"
           = Some (VForm {| form_data := data; form_errors := errors |}))
  /\ (forall y sy errors,
         get_school_year (db w) (user_school u) y = Some sy ->
         EnrollmentForm_clean (db w) u data = inl errors ->
         exists page,
           handle (students_enrollment_create y) request w
           = (Returned page, w)
           /\ status_code page = 200
           /\ context_of page !! "form"
              = Some (VForm {| form_data := data; form_errors := errors |}))
  /\ (forall s gl,
         choice_field student_id (students (db w)) data "student" = inr s ->
         choice_field grade_level_id (grade_levels (db w)) data "grade_level"
         = inr gl ->
         (student_school s <> user_school u ->
          exists errors msgs,
            EnrollmentForm_clean (db w) u data = inl errors
            /\ errors !! "__all__" = Some msgs
            /\ In "You may not enroll that student." msgs)
         /\ (grade_level_in_school (db w) (user_school u) (grade_level_id gl)
             = false ->
             exists errors msgs,
               EnrollmentForm_clean (db w) u data = inl errors
               /\ errors !! "__all__" = Some msgs
               /\ In "You may not enroll to that grade level." msgs))
  /\ (forall errors,
         StudentForm_clean data = inl errors ->
         exists page,
           handle students_create request w = (Returned page, w)
           /\ status_code page = 200
           /\ context_of page !! "form"
              = Some (VForm {| form_data := data; form_errors := errors |}))
  /\ (forall uuid t student task errors,
         get_student (db w) (user_school u) uuid = Some student ->
         get_course_task (db w) (user_school u) t = Some task ->
         CourseworkForm_clean data = inl errors ->
         exists page,
           handle (students_coursework uuid t) request w = (Returned page, w)
           /\ status_code page = 200
           /\ context_of page !! "form"
              = Some (VForm {| form_data := data; form_errors := errors |}))
  /\ (forall uuid t student task gw errors,
         get_student (db w) (user_school u) uuid = Some student ->
         get_course_task (db w) (user_school u) t = Some task ->
         find (fun gw => graded_work_course_task gw =? course_task_id task)
              (graded_works (db w)) = Some gw ->
         GradeForm_clean data = inl errors ->
         exists page,
           handle (students_grade_task uuid t) request w = (Returned page, w)
           /\ status_code page = 200
           /\ context_of page !! "form"
              = Some (VForm {| form_data := data; form_errors := errors |}))
  /\ (forall y m d week_day sy,
         date_new y m d = Returned week_day ->
         get_year_for (db w) u week_day = Some sy ->
         ChecklistForm_is_valid (db w) data sy = false ->
         let page := edit_page request w sy week_day in
         handle (teachers_edit_checklist y m d) request w
         = (Returned page, w)
         /\ status_code page = 200
         /\ context_of page !! "form" = None
         /\ dom (context_of page) = {["checklist"; "schedules"; "week"]}).
Proof.
  intros Hauth Hpost u data. subst u data.
  repeat apply conj.
  - intros uuid y student sy errors Hst Hsy Hbad. eexists. split.
    + enter_view Hauth.
      unfold student_enrollment_create, enrollment_post, bind, gets, ret.
      rewrite Hst, Hsy, Hpost, Hbad. reflexivity.
    + apply form_invalid_context.
  - intros y sy errors Hsy Hbad. eexists. split.
    + enter_view Hauth.
      unfold enrollment_create, enrollment_post, bind, gets, ret.
      rewrite Hsy, Hpost, Hbad. reflexivity.
    + apply form_invalid_context.
  - intros s gl Hs Hgl. split.
    + intros Hforeign.
      destruct (EnrollmentForm_foreign_student _ _ _ _ _ Hs Hgl Hforeign)
        as (errors & rest & Hclean & Hall).
      exists errors, ("You may not enroll that student." :: rest).
      repeat split; [exact Hclean | exact Hall | left; reflexivity].
    + intros Hforeign.
      exact (EnrollmentForm_foreign_grade_level _ _ _ _ _ Hs Hgl Hforeign).
  - intros errors Hbad. eexists. split.
    + enter_view Hauth. unfold create, ret. rewrite Hpost, Hbad. reflexivity.
    + apply form_invalid_context.
  - intros uuid t student task errors Hst Htask Hbad. eexists. split.
    + enter_view Hauth. unfold coursework, bind, gets, ret.
      rewrite Hst, Htask, Hpost, Hbad. reflexivity.
    + apply form_invalid_context.
  - intros uuid t student task gw errors Hst Htask Hgw Hbad.
    eexists. split.
    + enter_view Hauth. unfold grade_task, bind, gets, ret.
      rewrite Hst, Htask, Hgw, Hpost, Hbad. reflexivity.
    + apply form_invalid_context.
  - intros y m d week_day sy Hdate Hyear Hbad page.
    split; [|apply edit_page_context].
    enter_view Hauth.
    apply (edit_checklist_invalid_post _ _ _ _ _ _ _ Hdate Hyear);
      assumption.
Qed.

End FormClaims.

(** C5 as it is written fails at [teachers:edit_checklist]: the demo
    checklist form refuses the field ["x"], the page comes back with HTTP
    200, and its context has no form and so none of the form's errors. *)
Lemma edit_checklist_invalid_post_has_no_form :
  let request := Demo.post_request {["x" := "on"]} in
  ChecklistForm_is_valid (Externals := Demo.externals)
    Demo.school (POST request) Demo.year_2020 = false
  /\ exists page,
       handle (E := Demo.externals) (F := Demo.forms)
         (teachers_edit_checklist 2020 2 10) request Demo.world
       = (Returned page, Demo.world)
       /\ status_code page = 200
       /\ context_of page !! "form" = None.
Proof.
  split; [reflexivity|].
  exists (edit_page (E := Demo.externals)
            (Demo.post_request {["x" := "on"]}) Demo.world Demo.year_2020
            (mkdate 2020 2 10)).
  split; [reflexivity|]. split; [reflexivity|].
  apply (edit_page_context (E := Demo.externals)).
Qed.

(** Bob is a student of the other school: posting him to Alice's
    enrollment page gives the page back with the form and its error; and
    the refused checklist form gives the edit page back without one. *)
Lemma invalid_post_renders_again_witness :
  let enroll_bob :=
    Demo.post_request {["student" := "2"; "grade_level" := "100"]} in
  let bad_checklist := Demo.post_request {["x" := "on"]} in
  (exists page,
      handle (E := Demo.externals) (F := Demo.forms)
        (students_student_enrollment_create 1 10) enroll_bob Demo.world
      = (Returned page, Demo.world)
      /\ status_code page = 200
      /\ context_of page !! "form"
         = Some (VForm
                   {| form_data := POST enroll_bob;
                      form_errors :=
                        {["__all__" :=
                            ["You may not enroll that student."]]} |}))
  /\ (let page :=
        edit_page (E := Demo.externals) bad_checklist Demo.world
          Demo.year_2020 (mkdate 2020 2 10) in
      handle (E := Demo.externals) (F := Demo.forms)
        (teachers_edit_checklist 2020 2 10) bad_checklist Demo.world
      = (Returned page, Demo.world)
      /\ status_code page = 200
      /\ context_of page !! "form" = None
      /\ dom (context_of page) = {["checklist"; "schedules"; "week"]}).
Proof.
  intros enroll_bob bad_checklist. split.
  - refine (proj1
      (invalid_post_renders_again (E := Demo.externals) (F := Demo.forms)
         enroll_bob Demo.world _ _) 1 10 Demo.alice Demo.year_2020 _ _ _ _);
      reflexivity.
  - refine (proj2 (proj2 (proj2 (proj2 (proj2 (proj2
      (invalid_post_renders_again (E := Demo.externals) (F := Demo.forms)
         bad_checklist Demo.world _ _))))))
      2020 2 10 (mkdate 2020 2 10) Demo.year_2020 _ _ _);
      reflexivity.
Defined.

(** ** Tenant isolation *)

Lemma filter_skip {A} (f : A -> bool) pre x post :
  f x = false ->
  List.filter f (pre ++ x :: post) = List.filter f (pre ++ post).
Proof.
  intros Hx. rewrite !List.filter_app. cbn [List.filter]. now rewrite Hx.
Qed.

Lemma existsb_skip {A} (f : A -> bool) pre x post :
  f x = false -> existsb f (pre ++ x :: post) = existsb f (pre ++ post).
Proof.
  intros Hx. rewrite !List.existsb_app. cbn [existsb]. now rewrite Hx.
Qed.

Lemma filter_ext_in' {A} (f g : A -> bool) l :
  (forall a, In a l -> f a = g a) -> List.filter f l = List.filter g l.
Proof.
  induction l as [|a l IH]; intros Hext; [reflexivity|].
  cbn [List.filter]. rewrite (Hext a (or_introl eq_refl)).
  rewrite IH; [reflexivity|]. intros b Hb. apply Hext. now right.
Qed.

(** The students of a school do not change when a student of another
    school comes or goes. *)
Lemma students_of_foreign_student d u s pre post :
  students d = (pre ++ post)%list ->
  foreign_student u s ->
  students_of (set_students (pre ++ s :: post) d) (user_school u)
  = students_of d (user_school u).
Proof.
  intros Hd Hs. unfold students_of. cbn [students set_students].
  rewrite Hd. apply filter_skip. now apply Z.eqb_neq.
Qed.

(** What is left to grade for a student does not depend on the coursework
    of other students. *)
Lemma graded_work_for_foreign_coursework d school s c pre post :
  courseworks d = (pre ++ post)%list ->
  student_id s <> coursework_student c ->
  graded_work_for (set_courseworks (pre ++ c :: post) d) school s
  = graded_work_for d school s.
Proof.
  intros Hd Hc. unfold graded_work_for. cbn [graded_works set_courseworks].
  apply filter_ext_in'. intros gw _.
  assert (has_coursework (set_courseworks (pre ++ c :: post) d) s
            (graded_work_course_task gw)
          = has_coursework d s (graded_work_course_task gw)) as ->.
  { unfold has_coursework. cbn [courseworks set_courseworks]. rewrite Hd.
    apply existsb_skip.
    apply andb_false_intro1. apply Z.eqb_neq. congruence. }
  reflexivity.
Qed.

(** ... nor on the graded work of the tasks of other schools. *)
Lemma graded_work_for_foreign_graded_work d u s g pre post :
  graded_works d = (pre ++ post)%list ->
  foreign_graded_work d u g ->
  graded_work_for (set_graded_works (pre ++ g :: post) d) (user_school u) s
  = graded_work_for d (user_school u) s.
Proof.
  intros Hd Hg. unfold graded_work_for.
  cbn [graded_works set_graded_works]. rewrite Hd.
  rewrite filter_skip.
  - apply filter_ext_in'. intros gw _. reflexivity.
  - unfold foreign_graded_work in Hg.
    change (task_in_school (set_graded_works (pre ++ g :: post) d)
              (user_school u) (graded_work_course_task g))
      with (task_in_school d (user_school u) (graded_work_course_task g)).
    rewrite Hg. rewrite andb_false_r. reflexivity.
Qed.

(** One foreign row more leaves the roster and the work to grade as they
    are. *)
Lemma foreign_insert_invisible u d d' today :
  foreign_insert u d d' ->
  roster_of d' u today = roster_of d u today
  /\ work_to_grade_of d' u = work_to_grade_of d u.
Proof.
  intros [s pre post Hd Hs | c pre post Hd Hc | g pre post Hd Hg].
  - unfold roster_of, work_to_grade_of.
    rewrite (students_of_foreign_student _ _ _ _ _ Hd Hs).
    split; reflexivity.
  - split; [reflexivity|].
    unfold work_to_grade_of.
    change (students_of (set_courseworks (pre ++ c :: post) d)
              (user_school u))
      with (students_of d (user_school u)).
    apply map_ext_in. intros s Hin. f_equal.
    apply graded_work_for_foreign_coursework; [exact Hd|].
    apply Hc, Hin.
  - split; [reflexivity|].
    unfold work_to_grade_of.
    change (students_of (set_graded_works (pre ++ g :: post) d)
              (user_school u))
      with (students_of d (user_school u)).
    apply map_ext_in. intros s _. f_equal.
    now apply graded_work_for_foreign_graded_work.
Qed.

Section IsolationClaims.
Context `{E : Externals} `{F : Forms}.

Lemma index_page request w :
  index request w
  = (Returned
       (render "students/index.html"
          (<["nav_link" := VStr "students"]>
             (<["school_year" :=
                  VSchoolYear (year_for (db w) (user request)
                                 (get_local_today (user request)))]>
                (<["roster" :=
                     VRoster (roster_of (db w) (user request)
                                (get_local_today (user request)))]> ∅)))),
     w).
Proof. reflexivity. Qed.

Lemma grade_page request w :
  is_post request = false ->
  exists has_work,
    grade request w
    = (Returned
         (render "students/grade.html"
            (<["work_to_grade" :=
                 VWorkToGrade (work_to_grade_of (db w) (user request))]>
               (<["has_work_to_grade" := VBool has_work]> ∅))),
       w).
Proof.
  intros Hget. unfold grade. rewrite Hget. eexists. reflexivity.
Qed.

(** C1.  For an authenticated user, the roster on [students:index] and the
    work to grade on [students:grade] are the same before and after a
    student, a coursework or a graded work of another school is added to
    or removed from the datastore: the two pages answer HTTP 200 with equal
    ["roster"] and equal ["work_to_grade"] in their contexts. *)
Theorem tenant_isolation (request : HttpRequest) (d d' : Database)
    (msgs : list string) :
  is_authenticated request = true ->
  is_post request = false ->
  foreign_insert (user request) d d' \/ foreign_insert (user request) d' d ->
  let w := {| db := d; messages := msgs |} in
  let w' := {| db := d'; messages := msgs |} in
  (exists page page',
      handle students_index request w = (Returned page, w)
      /\ handle students_index request w' = (Returned page', w')
      /\ status_code page = 200 /\ status_code page' = 200
      /\ is_Some (context_of page !! "roster")
      /\ context_of page !! "roster" = context_of page' !! "roster")
  /\ (exists page page',
         handle students_grade request w = (Returned page, w)
         /\ handle students_grade request w' = (Returned page', w')
         /\ status_code page = 200 /\ status_code page' = 200
         /\ is_Some (context_of page !! "work_to_grade")
         /\ context_of page !! "work_to_grade"
            = context_of page' !! "work_to_grade").
Proof.
  intros Hauth Hget Hchange w w'.
  assert (roster_of d' (user request) (get_local_today (user request))
          = roster_of d (user request) (get_local_today (user request))
          /\ work_to_grade_of d' (user request)
             = work_to_grade_of d (user request)) as [Hroster Hwork].
  { destruct Hchange as [Hins | Hdel].
    - exact (foreign_insert_invisible _ _ _ _ Hins).
    - destruct (foreign_insert_invisible _ _ _
                  (get_local_today (user request)) Hdel) as [Hr Hw].
      split; congruence. }
  split.
  - do 2 eexists.
    rewrite !(handle_authenticated _ _ Hauth).
    cbn [view_body resolve authorize]. rewrite !index_page.
    split; [reflexivity|]. split; [reflexivity|].
    split; [reflexivity|]. split; [reflexivity|].
    unfold render, context_of.
    rewrite !lookup_insert_ne by discriminate. rewrite !lookup_insert_eq.
    subst w w'. cbn [db]. rewrite Hroster. split; [eexists|]; reflexivity.
  - rewrite !(handle_authenticated _ _ Hauth).
    cbn [view_body resolve authorize].
    destruct (grade_page request w Hget) as [hw Hpage].
    destruct (grade_page request w' Hget) as [hw' Hpage'].
    do 2 eexists.
    split; [exact Hpage|]. split; [exact Hpage'|].
    split; [reflexivity|]. split; [reflexivity|].
    unfold render, context_of. rewrite !lookup_insert_eq.
    subst w w'. cbn [db]. rewrite Hwork. split; [eexists|]; reflexivity.
Qed.

End IsolationClaims.

(** Bob's arrival in the other school changes neither page of the demo
    teacher. *)
Lemma tenant_isolation_witness :
  let w := {| db := Demo.before_bob; messages := [] |} in
  let w' := {| db := Demo.school; messages := [] |} in
  (exists page page',
      handle (E := Demo.externals) (F := Demo.forms)
        students_index (get_request Demo.teacher) w = (Returned page, w)
      /\ handle (E := Demo.externals) (F := Demo.forms)
           students_index (get_request Demo.teacher) w'
         = (Returned page', w')
      /\ status_code page = 200 /\ status_code page' = 200
      /\ is_Some (context_of page !! "roster")
      /\ context_of page !! "roster" = context_of page' !! "roster")
  /\ (exists page page',
         handle (E := Demo.externals) (F := Demo.forms)
           students_grade (get_request Demo.teacher) w = (Returned page, w)
         /\ handle (E := Demo.externals) (F := Demo.forms)
              students_grade (get_request Demo.teacher) w'
            = (Returned page', w')
         /\ status_code page = 200 /\ status_code page' = 200
         /\ is_Some (context_of page !! "work_to_grade")
         /\ context_of page !! "work_to_grade"
            = context_of page' !! "work_to_grade").
Proof.
  apply (tenant_isolation (E := Demo.externals) (F := Demo.forms)
           (get_request Demo.teacher) Demo.before_bob Demo.school []);
    [reflexivity | reflexivity |].
  left.
  apply (insert_foreign_student Demo.teacher Demo.before_bob Demo.bob
           [Demo.alice] []); [reflexivity|].
  unfold foreign_student. cbn. lia.
Defined.

(** ** The schema of migration 0001 *)

Section SchemaFacts.
Import Schema.

Lemma rows_of_insert t table rows label :
  rows_of (<[table := rows]> t) label
  = if decide (table = label) then rows else rows_of t label.
Proof.
  unfold rows_of. rewrite lookup_insert.
  destruct (decide (table = label)); reflexivity.
Qed.

Lemma rows_of_insert_eq t table rows :
  rows_of (<[table := rows]> t) table = rows.
Proof. rewrite rows_of_insert. now rewrite decide_True. Qed.

Lemma rows_of_insert_ne t table rows label :
  table <> label -> rows_of (<[table := rows]> t) label = rows_of t label.
Proof. intros. rewrite rows_of_insert. now rewrite decide_False. Qed.

Lemma shrinks_refl t : shrinks t t.
Proof. intros label r Hr. exact Hr. Qed.

Lemma shrinks_trans t1 t2 t3 :
  shrinks t1 t2 -> shrinks t2 t3 -> shrinks t1 t3.
Proof. intros H12 H23 label r Hr. apply H23, H12, Hr. Qed.

Lemma shrinks_filter t table f :
  shrinks (<[table := List.filter f (rows_of t table)]> t) t.
Proof.
  intros label r. rewrite rows_of_insert.
  destruct (decide (table = label)) as [<-|_]; [|trivial].
  intros Hr. apply filter_In in Hr. tauto.
Qed.

Lemma fold_shrinks {A}
    (step : gmap string (list (gmap string Value)) -> A
            -> gmap string (list (gmap string Value))) l :
  (forall acc a, shrinks (step acc a) acc) ->
  forall t, shrinks (fold_left step l t) t.
Proof.
  intros Hstep. induction l as [|a l IH]; intros t; cbn [fold_left].
  - apply shrinks_refl.
  - eapply shrinks_trans; [apply IH | apply Hstep].
Qed.

Lemma delete_where_shrinks fuel schema :
  forall table doomed t, shrinks (delete_where fuel schema table doomed t) t.
Proof.
  induction fuel as [|fuel IH]; intros table doomed t; cbn [delete_where].
  - apply shrinks_refl.
  - eapply shrinks_trans; [apply shrinks_filter|].
    apply fold_shrinks. intros acc [[child column] od].
    destruct od; [apply IH | apply shrinks_refl].
Qed.

Lemma delete_where_removes fuel schema table doomed t r :
  In r (rows_of (delete_where (S fuel) schema table doomed t) table) ->
  doomed r = false.
Proof.
  cbn [delete_where]. rewrite rows_of_insert_eq. intros Hr.
  apply filter_In in Hr as [_ Hr]. now apply negb_true_iff in Hr.
Qed.

Lemma delete_where_cascades fuel schema table doomed t child column r :
  In (child, column, CASCADE) (referrers schema table) ->
  In r (rows_of (delete_where (S (S fuel)) schema table doomed t) child) ->
  references column
    (omap key_of (List.filter doomed (rows_of t table))) r = false.
Proof.
  intros Href. remember (S fuel) as n eqn:Hn. cbn [delete_where].
  set (keys := omap key_of (List.filter doomed (rows_of t table))).
  intros Hr. apply shrinks_filter in Hr.
  apply in_split in Href as (before & after & Hsplit).
  rewrite Hsplit, fold_left_app in Hr. cbn [fold_left] in Hr.
  match type of Hr with
  | In r (rows_of (fold_left ?step after ?t1) child) =>
      apply (fold_shrinks step after) in Hr
  end.
  - subst n. now apply delete_where_removes in Hr.
  - intros acc [[c col] od].
    destruct od; [apply delete_where_shrinks | apply shrinks_refl].
Qed.

Lemma references_key column keys r k :
  r !! column = Some (VInt k) -> In k keys -> references column keys r = true.
Proof.
  intros Hcol Hk. unfold references. rewrite Hcol.
  apply existsb_exists. exists k. split; [exact Hk | apply Z.eqb_refl].
Qed.

Lemma doomed_key (doomed : gmap string Value -> bool) rows r k :
  In r rows -> doomed r = true -> key_of r = Some k ->
  In k (omap key_of (List.filter doomed rows)).
Proof.
  intros Hr Hd Hk.
  apply list_elem_of_In, list_elem_of_omap. exists r. split; [|exact Hk].
  apply list_elem_of_In, filter_In. split; assumption.
Qed.

(** Deleting a row deletes the rows that point to it through a cascading
    foreign key, in any schema of two models or more. *)
Lemma delete_cascades schema parent child column k t :
  (2 <= length schema)%nat ->
  In (child, column, CASCADE) (referrers schema parent) ->
  (exists r, In r (rows_of t parent) /\ key_of r = Some k) ->
  forall row, In row (rows_of (delete schema parent k t) child) ->
              row !! column <> Some (VInt k).
Proof.
  intros Hlen Href (r0 & Hr0 & Hk0) row Hrow Hcol.
  unfold delete in Hrow.
  destruct (length schema) as [|[|n]]; [lia | lia |].
  apply (delete_where_cascades (S n)) with (column := column) in Hrow;
    [|exact Href].
  rewrite (references_key _ _ _ k Hcol) in Hrow; [discriminate|].
  apply (doomed_key _ _ r0); [exact Hr0 | | exact Hk0].
  rewrite Hk0. apply Z.eqb_refl.
Qed.

Lemma label_Student : label Student_table = "students.Student".
Proof. reflexivity. Qed.
Lemma label_Enrollment : label Enrollment_table = "students.Enrollment".
Proof. reflexivity. Qed.
Lemma label_Coursework : label Coursework_table = "students.Coursework".
Proof. reflexivity. Qed.

Lemma field_ok_frame t table rows row nf :
  match snd nf with ForeignKey _ to => to <> table | _ => True end ->
  field_ok (<[table := rows]> t) row nf <-> field_ok t row nf.
Proof.
  unfold field_ok. destruct (snd nf) as [| | |od to];
    destruct (row !! fst nf) as [[]|]; try tauto.
  intros Hne. rewrite rows_of_insert_ne by congruence. tauto.
Qed.

Lemma fields_ok_frame t table rows row m :
  unreferenced table m ->
  Forall (field_ok (<[table := rows]> t) row) (fields m)
  <-> Forall (field_ok t row) (fields m).
Proof.
  unfold unreferenced. intros Hun. rewrite !List.Forall_forall in *.
  split; intros Hall nf Hnf; specialize (Hall nf Hnf);
    apply (field_ok_frame t table rows row nf (Hun nf Hnf)); exact Hall.
Qed.

Lemma model_ok_frame t table rows m :
  unreferenced table m -> label m <> table ->
  model_ok t m -> model_ok (<[table := rows]> t) m.
Proof.
  intros Hun Hne [Hrows Huniq]. unfold model_ok.
  rewrite rows_of_insert_ne by congruence. split; [|exact Huniq].
  rewrite List.Forall_forall in *. intros row Hrow.
  apply fields_ok_frame; [exact Hun | apply Hrows, Hrow].
Qed.

Lemma enrollment_unreferenced :
  Forall (unreferenced "students.Enrollment") operations.
Proof. repeat constructor; discriminate. Qed.

(** C6.  The only column set that migration 0001 keeps unique in the
    Enrollment table is the primary key.  So from any state of the tables
    that the schema admits, and any Enrollment row in it, the state with a
    second row for the same student and grade level (under a primary key
    not yet in use) is admitted too. *)
Theorem enrollment_not_unique
    (t : gmap string (list (gmap string Value))) (r : gmap string Value)
    (j : Z) :
  admissible operations t ->
  In r (rows_of t "students.Enrollment") ->
  (forall r', In r' (rows_of t "students.Enrollment") ->
              key_of r' <> Some j) ->
  let copy := <["id" := VInt j]> r in
  let t' :=
    <["students.Enrollment" :=
        (rows_of t "students.Enrollment" ++ [copy])%list]> t in
  unique_sets Enrollment_table = [["id"]]
  /\ admissible operations t'
  /\ In r (rows_of t' "students.Enrollment")
  /\ In copy (rows_of t' "students.Enrollment")
  /\ copy <> r
  /\ copy !! "student" = r !! "student"
  /\ copy !! "grade_level" = r !! "grade_level".
Proof.
  intros Hadm Hr Hfresh copy t'.
  assert (copy !! "id" = Some (VInt j)) as Hid by apply lookup_insert_eq.
  assert (copy <> r) as Hne.
  { intros Heq. apply (Hfresh r Hr). unfold key_of. now rewrite <- Heq, Hid. }
  split; [reflexivity|].
  split; [|repeat split].
  - pose proof enrollment_unreferenced as Hun.
    unfold admissible, operations in *.
    apply Forall_cons_iff in Hadm as [HS Hadm].
    apply Forall_cons_iff in Hadm as [HE Hadm].
    apply Forall_cons_iff in Hadm as [HC _].
    apply Forall_cons_iff in Hun as [HuS Hun].
    apply Forall_cons_iff in Hun as [HuE Hun].
    apply Forall_cons_iff in Hun as [HuC _].
    constructor; [|constructor; [|constructor; [|constructor]]].
    + apply model_ok_frame; [exact HuS | discriminate | exact HS].
    + destruct HE as [Hrows Huniq]. unfold model_ok.
      rewrite label_Enrollment in *. subst t'. rewrite rows_of_insert_eq.
      split.
      * apply List.Forall_app. split.
        -- rewrite List.Forall_forall in *. intros row Hrow.
           apply fields_ok_frame; [exact HuE | apply Hrows, Hrow].
        -- constructor; [|constructor].
           apply fields_ok_frame; [exact HuE|].
           rewrite List.Forall_forall in Hrows. specialize (Hrows r Hr).
           apply Forall_cons_iff in Hrows as [_ Hrows].
           constructor.
           ++ unfold field_ok. cbn [snd fst id_field]. now rewrite Hid.
           ++ apply Forall_cons_iff in Hrows as [Hgl Hrows].
              apply Forall_cons_iff in Hrows as [Hst _].
              constructor; [|constructor; [|constructor]].
              ** unfold field_ok, copy in *. cbn [fst snd] in *.
                 rewrite lookup_insert_ne by discriminate. exact Hgl.
              ** unfold field_ok, copy in *. cbn [fst snd] in *.
                 rewrite lookup_insert_ne by discriminate. exact Hst.
      * change (unique_sets Enrollment_table) with [["id"]] in *.
        apply Forall_cons_iff in Huniq as [Huniq _].
        constructor; [|constructor].
        rewrite map_app. apply NoDup_app. split; [exact Huniq|]. split.
        -- intros x Hx Hcopy. apply list_elem_of_In in Hx.
           apply in_map_iff in Hx as (r' & <- & Hr').
           apply list_elem_of_singleton in Hcopy.
           apply (Hfresh r' Hr'). unfold key_of.
           unfold project in Hcopy. cbn [map] in Hcopy.
           injection Hcopy as Hcopy. now rewrite Hcopy, Hid.
        -- cbn [map]. apply NoDup_singleton.
    + apply model_ok_frame; [exact HuC | discriminate | exact HC].
  - subst t'. rewrite rows_of_insert_eq. apply in_or_app. now left.
  - subst t'. rewrite rows_of_insert_eq. apply in_or_app. right. now left.
  - exact Hne.
  - apply lookup_insert_ne. discriminate.
  - apply lookup_insert_ne. discriminate.
Qed.

Ltac check_rows :=
  repeat first
    [ apply List.Forall_nil
    | apply List.Forall_cons
    | apply NoDup_nil_2
    | apply NoDup_singleton
    | apply List.Exists_cons_hd; reflexivity
    | exact I
    | split ].

Lemma tables_admissible : admissible operations Demo.tables.
Proof.
  unfold admissible, operations.
  constructor; [|constructor; [|constructor; [|constructor]]];
    unfold model_ok; (split; [vm_compute rows_of|]); check_rows;
    try (vm_compute; discriminate).
Qed.

Lemma referrers_of_foreign_key schema child column parent od :
  In (child, column, parent, od) (foreign_keys schema) ->
  In (child, column, od) (referrers schema parent).
Proof.
  intros Hfk. unfold referrers. apply in_flat_map.
  exists (child, column, parent, od). split; [exact Hfk|].
  rewrite String.eqb_refl. now left.
Qed.

Lemma foreign_keys_cascade :
  Forall (fun fk => snd fk = CASCADE) (foreign_keys operations).
Proof. repeat constructor. Qed.

(** C7.  Migration 0001 creates the tables Student, Enrollment and
    Coursework, in this order, with these columns: Student has [first_name]
    and [last_name], each a [CharField] of at most 64 characters, and a
    foreign key to [schools.School]; Enrollment has foreign keys to
    [schools.GradeLevel] and [students.Student]; Coursework has an indexed
    [DateField] [completed_date] and foreign keys to [courses.CourseTask]
    and [students.Student].  Every foreign key is [CASCADE], and deleting a
    row that a foreign key points to leaves no row pointing to it. *)
Theorem initial_migration_schema :
  map name operations = ["Student"; "Enrollment"; "Coursework"]
  /\ map fst (fields Student_table)
     = ["id"; "first_name"; "last_name"; "school"]
  /\ map fst (fields Enrollment_table) = ["id"; "grade_level"; "student"]
  /\ map fst (fields Coursework_table)
     = ["id"; "completed_date"; "course_task"; "student"]
  /\ get_field operations "Student" "first_name" = Some (CharField 64)
  /\ get_field operations "Student" "last_name" = Some (CharField 64)
  /\ get_field operations "Student" "school"
     = Some (ForeignKey CASCADE "schools.School")
  /\ get_field operations "Enrollment" "grade_level"
     = Some (ForeignKey CASCADE "schools.GradeLevel")
  /\ get_field operations "Enrollment" "student"
     = Some (ForeignKey CASCADE "students.Student")
  /\ get_field operations "Coursework" "completed_date"
     = Some (DateField true)
  /\ get_field operations "Coursework" "course_task"
     = Some (ForeignKey CASCADE "courses.CourseTask")
  /\ get_field operations "Coursework" "student"
     = Some (ForeignKey CASCADE "students.Student")
  /\ (forall child column parent od,
         In (child, column, parent, od) (foreign_keys operations) ->
         od = CASCADE
         /\ forall t k,
             (exists r, In r (rows_of t parent) /\ key_of r = Some k) ->
             forall row,
               In row (rows_of (delete operations parent k t) child) ->
               row !! column <> Some (VInt k)).
Proof.
  do 12 (split; [reflexivity|]).
  intros child column parent od Hfk.
  pose proof foreign_keys_cascade as Hall.
  rewrite List.Forall_forall in Hall. specialize (Hall _ Hfk).
  cbn [snd] in Hall. subst od. split; [reflexivity|].
  intros t k Hparent row Hrow.
  apply (delete_cascades operations parent child column k t);
    [cbn; lia | | exact Hparent | exact Hrow].
  exact (referrers_of_foreign_key _ _ _ _ _ Hfk).
Qed.

End SchemaFacts.

(** Alice is enrolled once in the demo tables; a second Enrollment row for
    her and the same grade level, under the key 2, is admitted. *)
Lemma enrollment_not_unique_witness :
  let r : gmap string Schema.Value :=
    {[ "id" := Schema.VInt 1; "grade_level" := Schema.VInt 100;
       "student" := Schema.VInt 1 ]} in
  let copy := <["id" := Schema.VInt 2]> r in
  let t' :=
    <["students.Enrollment" :=
        (Schema.rows_of Demo.tables "students.Enrollment" ++ [copy])%list]>
      Demo.tables in
  Schema.unique_sets Schema.Enrollment_table = [["id"]]
  /\ Schema.admissible Schema.operations t'
  /\ In r (Schema.rows_of t' "students.Enrollment")
  /\ In copy (Schema.rows_of t' "students.Enrollment")
  /\ copy <> r
  /\ copy !! "student" = r !! "student"
  /\ copy !! "grade_level" = r !! "grade_level".
Proof.
  apply (enrollment_not_unique Demo.tables
           {[ "id" := Schema.VInt 1; "grade_level" := Schema.VInt 100;
              "student" := Schema.VInt 1 ]} 2).
  - exact tables_admissible.
  - left. reflexivity.
  - intros r' Hr'. destruct Hr' as [<- | Hnil]; [|destruct Hnil].
    vm_compute. discriminate.
Defined.

(** Deleting Alice from the demo tables leaves no Enrollment row of
    hers. *)
Lemma initial_migration_schema_witness :
  Forall (fun row : gmap string Schema.Value =>
            row !! "student" <> Some (Schema.VInt 1))
         (Schema.rows_of
            (Schema.delete Schema.operations "students.Student" 1
               Demo.tables)
            "students.Enrollment").
Proof.
  apply List.Forall_forall.
  pose proof initial_migration_schema as Hschema.
  do 12 (apply proj2 in Hschema).
  destruct (Hschema "students.Enrollment" "student" "students.Student"
              Schema.CASCADE) as [_ Hdelete].
  - right. right. left. reflexivity.
  - apply (Hdelete Demo.tables 1).
    eexists. split; [left; reflexivity | reflexivity].
Defined.

Example delete_student_cascades :
  Schema.rows_of
    (Schema.delete Schema.operations "students.Student" 1 Demo.tables)
    "students.Enrollment" = []
  /\ Schema.rows_of
       (Schema.delete Schema.operations "students.Student" 1 Demo.tables)
       "students.Coursework" = []
  /\ Schema.rows_of
       (Schema.delete Schema.operations "schools.School" 1 Demo.tables)
       "students.Student" = []
  /\ Schema.rows_of
       (Schema.delete Schema.operations "schools.School" 1 Demo.tables)
       "students.Enrollment" = [].
Proof. repeat split; vm_compute; reflexivity. Qed.

(* ===================================================================== *)
(** * Further properties *)
(* ===================================================================== *)

(** ** Deleting rows under the schema of migration 0001 *)

Section SchemaMore.
Import Schema.

Lemma delete_unfold schema table k t :
  delete schema table k t
  = delete_where (S (length schema)) schema table (has_key k) t.
Proof. reflexivity. Qed.

Lemma referrers_Student :
  referrers operations "students.Student"
  = [("students.Enrollment", "student", CASCADE);
     ("students.Coursework", "student", CASCADE)].
Proof. reflexivity. Qed.

Lemma referrers_School :
  referrers operations "schools.School"
  = [("students.Student", "school", CASCADE)].
Proof. reflexivity. Qed.

Lemma referrers_Enrollment : referrers operations "students.Enrollment" = [].
Proof. reflexivity. Qed.
Lemma referrers_Coursework : referrers operations "students.Coursework" = [].
Proof. reflexivity. Qed.

Lemma delete_where_S fuel schema table doomed t :
  delete_where (S fuel) schema table doomed t
  = <[table :=
        List.filter (fun r => negb (doomed r))
          (rows_of
             (fold_left
                (fun acc ref =>
                   match ref with
                   | (child, column, CASCADE) =>
                       delete_where fuel schema child
                         (references column
                            (omap key_of
                               (List.filter doomed (rows_of t table))))
                         acc
                   | (_, _, DO_NOTHING) => acc
                   end)
                (referrers schema table) t)
             table)]>
      (fold_left
         (fun acc ref =>
            match ref with
            | (child, column, CASCADE) =>
                delete_where fuel schema child
                  (references column
                     (omap key_of (List.filter doomed (rows_of t table))))
                  acc
            | (_, _, DO_NOTHING) => acc
            end)
         (referrers schema table) t).
Proof. reflexivity. Qed.

Lemma delete_where_leaf fuel schema table doomed t :
  referrers schema table = [] ->
  delete_where (S fuel) schema table doomed t
  = <[table := List.filter (fun r => negb (doomed r)) (rows_of t table)]> t.
Proof. intros Hleaf. cbn [delete_where]. rewrite Hleaf. reflexivity. Qed.

Lemma delete_where_Student fuel doomed t :
  let keys :=
    omap key_of (List.filter doomed (rows_of t "students.Student")) in
  let keep r := negb (references "student" keys r) in
  delete_where (S (S fuel)) operations "students.Student" doomed t
  = <["students.Student" :=
        List.filter (fun r => negb (doomed r))
                    (rows_of t "students.Student")]>
      (<["students.Coursework" :=
           List.filter keep (rows_of t "students.Coursework")]>
         (<["students.Enrollment" :=
              List.filter keep (rows_of t "students.Enrollment")]> t)).
Proof.
  intros keys keep.
  rewrite delete_where_S, referrers_Student. cbn [fold_left].
  rewrite !delete_where_leaf by reflexivity.
  rewrite !rows_of_insert_ne by discriminate. reflexivity.
Qed.

Lemma referrers_GradeLevel :
  referrers operations "schools.GradeLevel"
  = [("students.Enrollment", "grade_level", CASCADE)].
Proof. reflexivity. Qed.

Lemma referrers_CourseTask :
  referrers operations "courses.CourseTask"
  = [("students.Coursework", "course_task", CASCADE)].
Proof. reflexivity. Qed.

Lemma referrers_other x :
  x <> "schools.School" -> x <> "schools.GradeLevel" ->
  x <> "students.Student" -> x <> "courses.CourseTask" ->
  referrers operations x = [].
Proof.
  intros H1 H2 H3 H4. unfold referrers.
  change (foreign_keys operations)
    with [("students.Student", "school", "schools.School", CASCADE);
          ("students.Enrollment", "grade_level", "schools.GradeLevel",
           CASCADE);
          ("students.Enrollment", "student", "students.Student", CASCADE);
          ("students.Coursework", "course_task", "courses.CourseTask",
           CASCADE);
          ("students.Coursework", "student", "students.Student", CASCADE)].
  cbn [flat_map app].
  rewrite !(proj2 (String.eqb_neq _ _)) by congruence. reflexivity.
Qed.

Lemma delete_Student k t :
  let keys :=
    omap key_of (List.filter (has_key k) (rows_of t "students.Student")) in
  let keep r := negb (references "student" keys r) in
  delete operations "students.Student" k t
  = <["students.Student" :=
        List.filter (fun r => negb (has_key k r))
                    (rows_of t "students.Student")]>
      (<["students.Coursework" :=
           List.filter keep (rows_of t "students.Coursework")]>
         (<["students.Enrollment" :=
              List.filter keep (rows_of t "students.Enrollment")]> t)).
Proof. apply (delete_where_Student 2). Qed.

Lemma delete_School k t :
  let schools :=
    omap key_of (List.filter (has_key k) (rows_of t "schools.School")) in
  let gone := references "school" schools in
  let keys := omap key_of (List.filter gone (rows_of t "students.Student")) in
  let keep r := negb (references "student" keys r) in
  delete operations "schools.School" k t
  = <["schools.School" :=
        List.filter (fun r => negb (has_key k r))
                    (rows_of t "schools.School")]>
      (<["students.Student" :=
           List.filter (fun r => negb (gone r))
                       (rows_of t "students.Student")]>
         (<["students.Coursework" :=
              List.filter keep (rows_of t "students.Coursework")]>
            (<["students.Enrollment" :=
                 List.filter keep (rows_of t "students.Enrollment")]> t))).
Proof.
  intros schools gone keys keep. rewrite delete_unfold.
  change (length operations) with 3%nat.
  rewrite delete_where_S, referrers_School. cbn [fold_left].
  rewrite (delete_where_Student 1).
  rewrite !rows_of_insert_ne by discriminate. reflexivity.
Qed.

Lemma delete_GradeLevel k t :
  let keys :=
    omap key_of (List.filter (has_key k) (rows_of t "schools.GradeLevel")) in
  delete operations "schools.GradeLevel" k t
  = <["schools.GradeLevel" :=
        List.filter (fun r => negb (has_key k r))
                    (rows_of t "schools.GradeLevel")]>
      (<["students.Enrollment" :=
           List.filter (fun r => negb (references "grade_level" keys r))
                       (rows_of t "students.Enrollment")]> t).
Proof.
  intros keys. rewrite delete_unfold. change (length operations) with 3%nat.
  rewrite delete_where_S, referrers_GradeLevel. cbn [fold_left].
  rewrite delete_where_leaf by reflexivity.
  rewrite !rows_of_insert_ne by discriminate. reflexivity.
Qed.

Lemma delete_CourseTask k t :
  let keys :=
    omap key_of (List.filter (has_key k) (rows_of t "courses.CourseTask")) in
  delete operations "courses.CourseTask" k t
  = <["courses.CourseTask" :=
        List.filter (fun r => negb (has_key k r))
                    (rows_of t "courses.CourseTask")]>
      (<["students.Coursework" :=
           List.filter (fun r => negb (references "course_task" keys r))
                       (rows_of t "students.Coursework")]> t).
Proof.
  intros keys. rewrite delete_unfold. change (length operations) with 3%nat.
  rewrite delete_where_S, referrers_CourseTask. cbn [fold_left].
  rewrite delete_where_leaf by reflexivity.
  rewrite !rows_of_insert_ne by discriminate. reflexivity.
Qed.

Lemma delete_other x k t :
  x <> "schools.School" -> x <> "schools.GradeLevel" ->
  x <> "students.Student" -> x <> "courses.CourseTask" ->
  delete operations x k t
  = <[x := List.filter (fun r => negb (has_key k r)) (rows_of t x)]> t.
Proof.
  intros H1 H2 H3 H4. rewrite delete_unfold.
  apply delete_where_leaf. now apply referrers_other.
Qed.

Lemma sublist_filter_bool {A} (f : A -> bool) l :
  sublist (List.filter f l) l.
Proof.
  induction l as [|a l IH]; cbn [List.filter]; [constructor|].
  destruct (f a); [apply sublist_skip | apply sublist_cons]; exact IH.
Qed.

Lemma sublist_map {A B} (f : A -> B) l1 l2 :
  sublist l1 l2 -> sublist (map f l1) (map f l2).
Proof.
  induction 1; cbn [map];
    [constructor | apply sublist_skip | apply sublist_cons]; assumption.
Qed.

Lemma sublist_In {A} (l1 l2 : list A) x :
  sublist l1 l2 -> In x l1 -> In x l2.
Proof.
  intros Hsub Hin. apply list_elem_of_In.
  apply (sublist_subseteq _ _ Hsub). now apply list_elem_of_In.
Qed.

Lemma foreign_key_of_field schema m column od to :
  In m schema ->
  In (column, ForeignKey od to) (fields m) ->
  In (label m, column, to, od) (foreign_keys schema).
Proof.
  intros Hm Hf. unfold foreign_keys. apply in_flat_map. exists m.
  split; [exact Hm|]. unfold foreign_keys_of. apply in_flat_map.
  exists (column, ForeignKey od to). split; [exact Hf|]. now left.
Qed.

Lemma restriction_admissible schema t' t :
  restriction t' t -> keeps_targets schema t' t ->
  admissible schema t -> admissible schema t'.
Proof.
  intros Hsub Hkeep Hadm. unfold admissible in *.
  rewrite List.Forall_forall in *. intros m Hm.
  destruct (Hadm m Hm) as [Hrows Huniq]. split.
  - rewrite List.Forall_forall in *. intros r Hr.
    pose proof (sublist_In _ _ _ (Hsub (label m)) Hr) as Hr0.
    specialize (Hrows r Hr0). rewrite List.Forall_forall in *.
    intros [column fld] Hnf. specialize (Hrows _ Hnf).
    unfold field_ok in *. cbn [fst snd] in *.
    destruct fld as [| | |od to]; try exact Hrows.
    destruct (r !! column) as [[k| |]|] eqn:Hcol; try exact Hrows.
    apply (Hkeep (label m) column to od r k); try assumption.
    now apply foreign_key_of_field.
  - rewrite List.Forall_forall in *. intros cols Hcols.
    apply (sublist_NoDup _ (map (project cols) (rows_of t (label m)))).
    + apply Huniq, Hcols.
    + apply sublist_map, Hsub.
Qed.

(** Deletion only takes rows out. *)
Lemma restriction_refl t : restriction t t.
Proof. intros table. reflexivity. Qed.

Lemma restriction_trans t1 t2 t3 :
  restriction t1 t2 -> restriction t2 t3 -> restriction t1 t3.
Proof. intros H12 H23 table. etransitivity; [apply H12 | apply H23]. Qed.

Lemma restriction_filter t table f :
  restriction (<[table := List.filter f (rows_of t table)]> t) t.
Proof.
  intros label. rewrite rows_of_insert.
  destruct (decide (table = label)) as [<-|_]; [|reflexivity].
  apply sublist_filter_bool.
Qed.

Lemma fold_restriction {A}
    (step : gmap string (list (gmap string Value)) -> A
            -> gmap string (list (gmap string Value))) l :
  (forall acc a, restriction (step acc a) acc) ->
  forall t, restriction (fold_left step l t) t.
Proof.
  intros Hstep. induction l as [|a l IH]; intros t; cbn [fold_left].
  - apply restriction_refl.
  - eapply restriction_trans; [apply IH | apply Hstep].
Qed.

Lemma delete_where_restriction fuel schema :
  forall table doomed t,
    restriction (delete_where fuel schema table doomed t) t.
Proof.
  induction fuel as [|fuel IH]; intros table doomed t; cbn [delete_where].
  - apply restriction_refl.
  - eapply restriction_trans; [apply restriction_filter|].
    apply fold_restriction. intros acc [[child column] od].
    destruct od; [apply IH | apply restriction_refl].
Qed.

Lemma edge_kept (doomed : gmap string Value -> bool) rowsP column r k :
  references column (omap key_of (List.filter doomed rowsP)) r = false ->
  r !! column = Some (VInt k) ->
  Exists (fun r' => key_of r' = Some k) rowsP ->
  Exists (fun r' => key_of r' = Some k)
         (List.filter (fun r' => negb (doomed r')) rowsP).
Proof.
  intros Hkeep Hcol Hex. apply List.Exists_exists in Hex as (r' & Hr' & Hk).
  apply List.Exists_exists. exists r'. split; [|exact Hk].
  apply filter_In. split; [exact Hr'|].
  destruct (doomed r') eqn:Hd; [|reflexivity].
  rewrite (references_key _ _ _ k Hcol) in Hkeep; [discriminate|].
  now apply (doomed_key doomed rowsP r').
Qed.

Ltac lookup_rows :=
  repeat first [ rewrite rows_of_insert_eq
               | rewrite rows_of_insert_ne by (discriminate || congruence) ].

Ltac lookup_rows_in H :=
  repeat first [ rewrite rows_of_insert_eq in H
               | rewrite rows_of_insert_ne in H
                   by (discriminate || congruence) ].

Ltac keep_edge Hr Hcol Hex :=
  first
    [ exact Hex
    | apply filter_In in Hr as [_ Hr]; apply negb_true_iff in Hr;
      exact (edge_kept _ _ _ _ _ Hr Hcol Hex) ].

Lemma foreign_keys_operations child column to od :
  In (child, column, to, od) (foreign_keys operations) ->
  (child, column, to, od)
  = ("students.Student", "school", "schools.School", CASCADE)
  \/ (child, column, to, od)
     = ("students.Enrollment", "grade_level", "schools.GradeLevel", CASCADE)
  \/ (child, column, to, od)
     = ("students.Enrollment", "student", "students.Student", CASCADE)
  \/ (child, column, to, od)
     = ("students.Coursework", "course_task", "courses.CourseTask", CASCADE)
  \/ (child, column, to, od)
     = ("students.Coursework", "student", "students.Student", CASCADE).
Proof.
  intros [H|[H|[H|[H|[H|[]]]]]]; symmetry in H; tauto.
Qed.

Lemma delete_keeps_targets parent k t :
  keeps_targets operations (delete operations parent k t) t.
Proof.
  intros child column to od r k' Hfk Hr Hcol Hex.
  destruct (decide (parent = "students.Student")) as [->|HS];
    [|destruct (decide (parent = "schools.School")) as [->|HSc];
      [|destruct (decide (parent = "schools.GradeLevel")) as [->|HG];
        [|destruct (decide (parent = "courses.CourseTask")) as [->|HC]]]].
  - rewrite delete_Student in *.
    apply foreign_keys_operations in Hfk
      as [H|[H|[H|[H|H]]]]; injection H as -> -> -> ->;
      lookup_rows; lookup_rows_in Hr; keep_edge Hr Hcol Hex.
  - rewrite delete_School in *.
    apply foreign_keys_operations in Hfk
      as [H|[H|[H|[H|H]]]]; injection H as -> -> -> ->;
      lookup_rows; lookup_rows_in Hr; keep_edge Hr Hcol Hex.
  - rewrite delete_GradeLevel in *.
    apply foreign_keys_operations in Hfk
      as [H|[H|[H|[H|H]]]]; injection H as -> -> -> ->;
      lookup_rows; lookup_rows_in Hr; keep_edge Hr Hcol Hex.
  - rewrite delete_CourseTask in *.
    apply foreign_keys_operations in Hfk
      as [H|[H|[H|[H|H]]]]; injection H as -> -> -> ->;
      lookup_rows; lookup_rows_in Hr; keep_edge Hr Hcol Hex.
  - rewrite delete_other in * by assumption.
    apply foreign_keys_operations in Hfk
      as [H|[H|[H|[H|H]]]]; injection H as -> -> -> ->;
      lookup_rows; exact Hex.
Qed.

(** X5.  Deleting a row keeps the tables admissible: whatever table the
    row is in and whatever its key, if the state before satisfies the
    schema of migration 0001 (column types, primary keys, every foreign
    key pointing to an existing row), so does the state after the
    cascading delete. *)
Theorem delete_preserves_admissible parent k t :
  admissible operations t ->
  admissible operations (delete operations parent k t).
Proof.
  apply restriction_admissible.
  - apply delete_where_restriction.
  - apply delete_keeps_targets.
Qed.

Lemma filter_none_keeps_all {A} (f : A -> bool) l :
  List.filter f l = [] -> List.filter (fun x => negb (f x)) l = l.
Proof.
  induction l as [|a l IH]; [reflexivity|]. cbn [List.filter].
  destruct (f a); [discriminate|]. intros Hnil. cbn [negb].
  now rewrite IH.
Qed.

Lemma references_nil column r : references column [] r = false.
Proof. unfold references. now destruct (r !! column) as [[]|]. Qed.

Lemma filter_references_nil column (l : list (gmap string Value)) :
  List.filter (references column []) l = [].
Proof.
  induction l as [|a l IH]; [reflexivity|]. cbn [List.filter].
  now rewrite references_nil.
Qed.

Lemma delete_where_nothing fuel schema :
  forall table doomed t,
    List.filter doomed (rows_of t table) = [] ->
    forall table',
      rows_of (delete_where fuel schema table doomed t) table'
      = rows_of t table'.
Proof.
  induction fuel as [|fuel IH]; intros table doomed t Hnone table';
    [reflexivity|].
  rewrite delete_where_S, Hnone. cbn [omap list_omap].
  set (step := fun acc (ref : string * string * OnDelete) =>
                 match ref with
                 | (child, column, CASCADE) =>
                     delete_where fuel schema child (references column [])
                       acc
                 | (_, _, DO_NOTHING) => acc
                 end).
  assert (forall refs acc x,
             rows_of (fold_left step refs acc) x = rows_of acc x) as Hfold.
  { induction refs as [|[[child column] od] refs IHrefs]; intros acc x;
      [reflexivity|].
    cbn [fold_left]. rewrite IHrefs. unfold step.
    destruct od; [|reflexivity].
    apply IH. apply filter_references_nil. }
  rewrite rows_of_insert.
  destruct (decide (table = table')) as [<-|_]; [|apply Hfold].
  rewrite Hfold. now apply filter_none_keeps_all.
Qed.

(** X8.  Deleting a key that no row of the table has changes no table, in
    any schema. *)
Theorem delete_missing_key schema table k t :
  (forall r, In r (rows_of t table) -> key_of r <> Some k) ->
  forall table',
    rows_of (delete schema table k t) table' = rows_of t table'.
Proof.
  intros Hmissing table'. rewrite delete_unfold.
  apply delete_where_nothing.
  induction (rows_of t table) as [|r l IH]; [reflexivity|].
  cbn [List.filter]. unfold has_key at 1.
  destruct (key_of r) as [k'|] eqn:Hk.
  - destruct (k' =? k) eqn:Heq.
    + apply Z.eqb_eq in Heq. subst k'.
      exfalso. apply (Hmissing r); [now left | exact Hk].
    + apply IH. intros r' Hr'. apply Hmissing. now right.
  - apply IH. intros r' Hr'. apply Hmissing. now right.
Qed.

(** The keys of the rows that [has_key k] selects are all [k]. *)
Lemma references_doomed_keys column k rows r :
  (exists r0, In r0 rows /\ key_of r0 = Some k) ->
  references column (omap key_of (List.filter (has_key k) rows)) r
  = references column [k] r.
Proof.
  intros (r0 & Hr0 & Hk0). unfold references.
  destruct (r !! column) as [[k'| |]|]; try reflexivity.
  cbn [existsb]. rewrite orb_false_r.
  destruct (k' =? k) eqn:Heq.
  - apply Z.eqb_eq in Heq. subst k'. apply existsb_exists.
    exists k. split; [|apply Z.eqb_refl].
    apply (doomed_key (has_key k) rows r0); [exact Hr0 | | exact Hk0].
    unfold has_key. rewrite Hk0. apply Z.eqb_refl.
  - apply not_true_is_false. intros Hex.
    apply existsb_exists in Hex as (x & Hx & Hxk).
    apply Z.eqb_eq in Hxk. subst x.
    apply list_elem_of_In, list_elem_of_omap in Hx as (r1 & Hr1 & Hk1).
    apply list_elem_of_In, filter_In in Hr1 as [_ Hd].
    unfold has_key in Hd. rewrite Hk1 in Hd. congruence.
Qed.

Lemma filter_ext_bool {A} (f g : A -> bool) l :
  (forall a, f a = g a) -> List.filter f l = List.filter g l.
Proof.
  intros Hext. induction l as [|a l IH]; [reflexivity|].
  cbn [List.filter]. now rewrite Hext, IH.
Qed.

(** X6.  Through each of the five foreign keys of the migration, deleting
    an existing parent row removes from the child table exactly the rows
    whose column points to it; the other rows stay, in their order. *)
Theorem delete_removes_exactly_referrers child column parent od k t :
  In (child, column, parent, od) (foreign_keys operations) ->
  (exists r, In r (rows_of t parent) /\ key_of r = Some k) ->
  rows_of (delete operations parent k t) child
  = List.filter (fun r => negb (references column [k] r)) (rows_of t child).
Proof.
  intros Hfk Hparent.
  apply foreign_keys_operations in Hfk
    as [H|[H|[H|[H|H]]]]; injection H as -> -> -> ->.
  - rewrite delete_School. lookup_rows.
    apply filter_ext_bool. intros r.
    now rewrite references_doomed_keys.
  - rewrite delete_GradeLevel. lookup_rows.
    apply filter_ext_bool. intros r.
    now rewrite references_doomed_keys.
  - rewrite delete_Student. lookup_rows.
    apply filter_ext_bool. intros r.
    now rewrite references_doomed_keys.
  - rewrite delete_CourseTask. lookup_rows.
    apply filter_ext_bool. intros r.
    now rewrite references_doomed_keys.
  - rewrite delete_Student. lookup_rows.
    apply filter_ext_bool. intros r.
    now rewrite references_doomed_keys.
Qed.

Lemma references_true column keys r :
  references column keys r = true
  <-> exists k, r !! column = Some (VInt k) /\ In k keys.
Proof.
  unfold references. split.
  - destruct (r !! column) as [[k| |]|]; try discriminate.
    intros Hex. apply existsb_exists in Hex as (x & Hx & Hxk).
    apply Z.eqb_eq in Hxk. subst x. now exists k.
  - intros (k & -> & Hk). apply existsb_exists. exists k.
    split; [exact Hk | apply Z.eqb_refl].
Qed.

(** X7.  The cascade goes on through the students: after an existing
    school is deleted, every Enrollment and Coursework row that is left
    was there before and points to no student of that school. *)
Theorem delete_school_reaches child k t :
  child = "students.Enrollment" \/ child = "students.Coursework" ->
  (exists r, In r (rows_of t "schools.School") /\ key_of r = Some k) ->
  forall row,
    In row (rows_of (delete operations "schools.School" k t) child) ->
    In row (rows_of t child)
    /\ forall s ks,
         In s (rows_of t "students.Student") ->
         s !! "school" = Some (VInt k) ->
         key_of s = Some ks ->
         row !! "student" <> Some (VInt ks).
Proof.
  intros Hchild Hschool row. rewrite delete_School.
  assert (forall s, references "school"
                      (omap key_of
                         (List.filter (has_key k)
                            (rows_of t "schools.School"))) s
                    = references "school" [k] s) as Hgone
    by (intros s; now apply references_doomed_keys).
  assert (In row (List.filter
                    (fun r => negb
                       (references "student"
                          (omap key_of
                             (List.filter
                                (references "school"
                                   (omap key_of
                                      (List.filter (has_key k)
                                         (rows_of t "schools.School"))))
                                (rows_of t "students.Student"))) r))
                    (rows_of t child))
          -> In row (rows_of t child)
             /\ forall s ks,
                  In s (rows_of t "students.Student") ->
                  s !! "school" = Some (VInt k) ->
                  key_of s = Some ks ->
                  row !! "student" <> Some (VInt ks)) as Himp.
  { rewrite filter_In, negb_true_iff.
    intros [Hrow Hkeep]. split; [exact Hrow|].
    intros s ks Hs Hsk Hks Hcol.
    rewrite (references_key _ _ _ ks Hcol) in Hkeep; [discriminate|].
    apply (doomed_key _ _ s); [exact Hs | | exact Hks].
    rewrite Hgone. apply references_true. exists k. split; [exact Hsk|].
    now left. }
  destruct Hchild as [-> | ->]; lookup_rows; exact Himp.
Qed.

Lemma field_ok_grow t table extra row nf :
  field_ok t row nf ->
  field_ok (<[table := (rows_of t table ++ extra)%list]> t) row nf.
Proof.
  unfold field_ok. destruct (snd nf) as [| | |od to];
    destruct (row !! fst nf) as [[]|]; try tauto.
  intros Hex. rewrite rows_of_insert.
  destruct (decide (table = to)) as [->|_]; [|exact Hex].
  apply List.Exists_app. now left.
Qed.

Lemma field_ok_same_value t r1 r2 nf :
  r1 !! fst nf = r2 !! fst nf -> field_ok t r1 nf -> field_ok t r2 nf.
Proof. unfold field_ok. now intros ->. Qed.

Lemma id_is_auto m nf :
  In m operations -> In nf (fields m) -> fst nf = "id" ->
  exists a b c d, snd nf = AutoField a b c d.
Proof.
  intros [<-|[<-|[<-|[]]]] Hnf Hid; cbn in Hnf;
    repeat (destruct Hnf as [<-|Hnf];
            [first [discriminate Hid | do 4 eexists; reflexivity]|]);
    destruct Hnf.
Qed.

Lemma unique_sets_operations m :
  In m operations -> unique_sets m = [["id"]].
Proof. intros [<-|[<-|[<-|[]]]]; reflexivity. Qed.

Lemma NoDup_keys_fresh (rows : list (gmap string Value)) copy j :
  NoDup (map (project ["id"]) rows) ->
  (forall r', In r' rows -> key_of r' <> Some j) ->
  copy !! "id" = Some (VInt j) ->
  NoDup (map (project ["id"]) (rows ++ [copy])).
Proof.
  intros Hnd Hfresh Hid. rewrite map_app. apply NoDup_app.
  split; [exact Hnd|]. split; [|apply NoDup_singleton].
  intros x Hx Hcopy. apply list_elem_of_In in Hx.
  apply in_map_iff in Hx as (r' & <- & Hr').
  apply list_elem_of_singleton in Hcopy.
  apply (Hfresh r' Hr'). unfold key_of.
  unfold project in Hcopy. cbn [map] in Hcopy.
  injection Hcopy as Hcopy. now rewrite Hcopy, Hid.
Qed.

(** X10.  None of the three tables has a uniqueness constraint besides its
    primary key: in an admissible state, any row of Student, Enrollment or
    Coursework can be entered a second time under a key not yet in use,
    all other columns equal, and the state is admissible again. *)
Theorem any_row_can_be_duplicated m t r j :
  In m operations ->
  admissible operations t ->
  In r (rows_of t (label m)) ->
  (forall r', In r' (rows_of t (label m)) -> key_of r' <> Some j) ->
  let copy := <["id" := VInt j]> r in
  admissible operations
    (<[label m := (rows_of t (label m) ++ [copy])%list]> t)
  /\ copy <> r
  /\ forall column, column <> "id" -> copy !! column = r !! column.
Proof.
  intros Hm Hadm Hr Hfresh copy.
  assert (copy !! "id" = Some (VInt j)) as Hid by apply lookup_insert_eq.
  assert (forall column, column <> "id" -> copy !! column = r !! column)
    as Hsame by (intros column Hne; apply lookup_insert_ne; congruence).
  split; [|split; [|exact Hsame]].
  - unfold admissible in *. rewrite List.Forall_forall in *.
    intros m' Hm'. destruct (Hadm m' Hm') as [Hrows Huniq].
    rewrite List.Forall_forall in Hrows.
    assert (forall row, In row (rows_of t (label m')) ->
              Forall (field_ok
                        (<[label m := (rows_of t (label m) ++ [copy])%list]>
                           t) row)
                     (fields m')) as Hold.
    { intros row Hrow. specialize (Hrows row Hrow).
      rewrite List.Forall_forall in *. intros nf Hnf.
      apply field_ok_grow, Hrows, Hnf. }
    split.
    + rewrite rows_of_insert.
      destruct (decide (label m = label m')) as [Heq|_];
        [|rewrite List.Forall_forall; exact Hold].
      rewrite Heq in *. apply List.Forall_app. split;
        [rewrite List.Forall_forall; exact Hold|].
      constructor; [|constructor].
      rewrite List.Forall_forall. intros nf Hnf.
      destruct (decide (fst nf = "id")) as [Hisid|Hnotid].
      * destruct (id_is_auto m' nf Hm' Hnf Hisid) as (a & b & c & d & Hf).
        unfold field_ok. rewrite Hf, Hisid, Hid. exact I.
      * apply (field_ok_same_value _ r); [symmetry; now apply Hsame|].
        specialize (Hold r Hr). rewrite List.Forall_forall in Hold.
        apply Hold, Hnf.
    + rewrite (unique_sets_operations m' Hm') in *.
      apply Forall_cons_iff in Huniq as [Huniq _].
      constructor; [|constructor].
      rewrite rows_of_insert.
      destruct (decide (label m = label m')) as [Heq|_]; [|exact Huniq].
      rewrite Heq in *. now apply (NoDup_keys_fresh _ _ j).
  - intros Heq. apply (Hfresh r Hr). unfold key_of. now rewrite <- Heq, Hid.
Qed.

(** X11.  The primary key is kept unique: a state in which a table of the
    migration has a second row with the key of one of its rows is not
    admissible. *)
Theorem duplicate_key_rejected m t r r2 :
  In m operations ->
  In r (rows_of t (label m)) ->
  r2 !! "id" = r !! "id" ->
  ~ admissible operations
      (<[label m := (rows_of t (label m) ++ [r2])%list]> t).
Proof.
  intros Hm Hr Hid Hadm.
  unfold admissible in Hadm. rewrite List.Forall_forall in Hadm.
  destruct (Hadm m Hm) as [_ Huniq].
  rewrite (unique_sets_operations m Hm) in Huniq.
  apply Forall_cons_iff in Huniq as [Huniq _].
  rewrite rows_of_insert_eq, map_app in Huniq.
  apply NoDup_app in Huniq as (_ & Hdisjoint & _).
  apply (Hdisjoint (project ["id"] r)).
  - apply list_elem_of_In, in_map, Hr.
  - apply list_elem_of_singleton. unfold project. cbn [map].
    now rewrite Hid.
Qed.

End SchemaMore.

(** ** The teacher views, case by case *)

Section TeachersMore.
Context `{E : Externals}.

(** What [edit_checklist] does, case by case. *)
Lemma edit_checklist_cases request y m d w :
  (exists e, date_new y m d = Raised e
             /\ edit_checklist request y m d w = (Raised e, w))
  \/ (exists week_day,
         date_new y m d = Returned week_day
         /\ get_year_for (db w) (user request) week_day = None
         /\ edit_checklist request y m d w
            = (Returned HttpResponseNotFound, w))
  \/ (exists week_day sy,
         date_new y m d = Returned week_day
         /\ get_year_for (db w) (user request) week_day = Some sy
         /\ String.eqb (method request) "POST"
            && ChecklistForm_is_valid (db w) (POST request) sy = false
         /\ edit_checklist request y m d w
            = (Returned (edit_page request w sy week_day), w))
  \/ (exists week_day sy,
         date_new y m d = Returned week_day
         /\ get_year_for (db w) (user request) week_day = Some sy
         /\ String.eqb (method request) "POST" = true
         /\ ChecklistForm_is_valid (db w) (POST request) sy = true
         /\ edit_checklist request y m d w
            = (Returned (redirect (resolve_url "teachers:checklist"
                                     [("year", y); ("month", m);
                                      ("day", d)])),
               with_db (ChecklistForm_save (POST request) sy) w)).
Proof.
  destruct (date_new y m d) as [week_day|e] eqn:Hdate.
  - destruct (get_year_for (db w) (user request) week_day) as [sy|]
      eqn:Hyear.
    + destruct (String.eqb (method request) "POST") eqn:Hmethod.
      * destruct (ChecklistForm_is_valid (db w) (POST request) sy)
          eqn:Hvalid.
        -- do 3 right. exists week_day, sy.
           repeat (split; [first [assumption | reflexivity]|]).
           now apply (edit_checklist_valid_post _ _ _ _ _ week_day).
        -- do 2 right. left. exists week_day, sy.
           repeat (split; [first [assumption | reflexivity]|]).
           now apply edit_checklist_invalid_post.
      * do 2 right. left. exists week_day, sy.
        repeat (split; [first [assumption | reflexivity]|]).
        now apply edit_checklist_get.
    + right. left. exists week_day.
      repeat (split; [first [assumption | reflexivity]|]).
      now apply (edit_checklist_no_year _ _ _ _ _ week_day).
  - left. exists e. split; [reflexivity|].
    now apply edit_checklist_raises.
Qed.

(** X1.  [checklist] never changes the datastore or the messages, on any
    request and any URL triple, whether it returns or raises.
    [edit_checklist] writes exactly on a POST of a valid form for a date
    inside a school year of the user: then the datastore is what
    [form.save()] makes of it for that school year, and the messages are
    untouched; on every other request the datastore and the messages are
    as they were. *)
Theorem teacher_views_write_only_on_valid_post request y m d w :
  snd (checklist request y m d w) = w
  /\ (forall week_day sy,
         date_new y m d = Returned week_day ->
         get_year_for (db w) (user request) week_day = Some sy ->
         method request = "POST" ->
         ChecklistForm_is_valid (db w) (POST request) sy = true ->
         snd (edit_checklist request y m d w)
         = {| db := ChecklistForm_save (POST request) sy (db w);
              messages := messages w |})
  /\ ((forall week_day sy,
          date_new y m d = Returned week_day ->
          get_year_for (db w) (user request) week_day = Some sy ->
          method request = "POST" ->
          ChecklistForm_is_valid (db w) (POST request) sy = false) ->
      snd (edit_checklist request y m d w) = w).
Proof.
  split; [|split].
  - destruct (date_new y m d) as [week_day|e] eqn:Hdate.
    + now rewrite (checklist_on_date _ _ _ _ _ _ Hdate).
    + now rewrite (checklist_raises _ _ _ _ _ _ Hdate).
  - intros week_day sy Hdate Hyear Hmethod Hvalid.
    apply String.eqb_eq in Hmethod.
    now rewrite (edit_checklist_valid_post _ _ _ _ _ _ _
                   Hdate Hyear Hmethod Hvalid).
  - intros Hnever.
    destruct (edit_checklist_cases request y m d w)
      as [(e & _ & ->) | [(wd & _ & _ & ->) | [(wd & sy & _ & _ & _ & ->)
          | (wd & sy & Hdate & Hyear & Hmethod & Hvalid & _)]]];
      [reflexivity | reflexivity | reflexivity |].
    apply String.eqb_eq in Hmethod.
    rewrite (Hnever wd sy Hdate Hyear Hmethod) in Hvalid. discriminate.
Qed.

(** X2.  Whenever [edit_checklist] answers with a redirect, the redirect
    goes to [teachers:checklist] for the year, month and day of the
    request, and [checklist] answers that triple with its page (HTTP 200)
    for every request and every state of the datastore. *)
Theorem saved_checklist_redirect_renders request y m d w response w' :
  edit_checklist request y m d w = (Returned response, w') ->
  status_code response = 302 ->
  response
  = redirect (resolve_url "teachers:checklist"
                [("year", y); ("month", m); ("day", d)])
  /\ messages w' = messages w
  /\ forall request' w'',
       exists page,
         checklist request' y m d w'' = (Returned page, w'')
         /\ status_code page = 200.
Proof.
  intros Hrun Hstatus.
  destruct (edit_checklist_cases request y m d w)
    as [(e & _ & Hcase) | [(wd & _ & _ & Hcase)
        | [(wd & sy & _ & _ & _ & Hcase)
          | (wd & sy & Hdate & _ & _ & _ & Hcase)]]];
    rewrite Hcase in Hrun; inversion Hrun; subst;
    try discriminate Hstatus.
  split; [reflexivity|]. split; [reflexivity|].
  intros request' w''. eexists.
  rewrite (checklist_on_date _ _ _ _ _ _ Hdate). split; reflexivity.
Qed.

Lemma out_of_range_is_no_date y m d :
  y < 1 \/ 9999 < y \/ m < 1 \/ 12 < m \/ d < 1 \/ 31 < d ->
  check_date_fields y m d = false.
Proof.
  intros Hout. apply not_true_is_false. intros Hok.
  apply check_date_fields_range in Hok.
  pose proof (days_in_month_le_31 y m). lia.
Qed.

(** X3.  A URL whose year is outside 1..9999, whose month is outside
    1..12 or whose day is outside 1..31 makes both handlers raise, with
    the datastore untouched: the [ValueError] of [datetime.date] when the
    three numbers fit C integers, and its [OverflowError] when one of them
    does not. *)
Theorem teacher_views_raise_out_of_range request y m d w :
  y < 1 \/ 9999 < y \/ m < 1 \/ 12 < m \/ d < 1 \/ 31 < d ->
  let error :=
    if fits_c_int y && fits_c_int m && fits_c_int d then ValueError
    else OverflowError in
  checklist request y m d w = (Raised error, w)
  /\ edit_checklist request y m d w = (Raised error, w).
Proof.
  intros Hout error.
  pose proof (date_new_invalid _ _ _ (out_of_range_is_no_date _ _ _ Hout))
    as Hdate.
  split; [now apply checklist_raises | now apply edit_checklist_raises].
Qed.

(** X4.  For a date that exists, [edit_checklist] answers HTTP 404 exactly
    when no school year of the user covers the date. *)
Theorem edit_checklist_404_iff request y m d w week_day :
  date_new y m d = Returned week_day ->
  (exists w',
      edit_checklist request y m d w = (Returned HttpResponseNotFound, w'))
  <-> get_year_for (db w) (user request) week_day = None.
Proof.
  intros Hdate. split.
  - intros [w' Hrun].
    destruct (edit_checklist_cases request y m d w)
      as [(e & _ & Hcase) | [(wd & Hwd & Hnone & _)
          | [(wd & sy & _ & _ & _ & Hcase)
            | (wd & sy & _ & _ & _ & _ & Hcase)]]];
      try (rewrite Hcase in Hrun; discriminate Hrun).
    rewrite Hdate in Hwd. injection Hwd as <-. exact Hnone.
  - intros Hnone. exists w.
    now apply (edit_checklist_no_year _ _ _ _ _ week_day).
Qed.

End TeachersMore.

(** ** The further properties on the demo school *)

(** The demo teacher keeps the math course: the edit view saves and sends
    the teacher to the checklist of the same week, which renders. *)
Lemma saved_checklist_redirect_renders_witness :
  let request := Demo.post_request {["1000" := "on"]} in
  let response :=
    redirect (E := Demo.externals)
      (resolve_url "teachers:checklist"
         [("year", 2020); ("month", 2); ("day", 10)]) in
  let w' := with_db (Demo.save_checklist (POST request) Demo.year_2020)
                    Demo.world in
  response
  = redirect (resolve_url "teachers:checklist"
                [("year", 2020); ("month", 2); ("day", 10)])
  /\ messages w' = messages Demo.world
  /\ forall request' w'',
       exists page,
         checklist (E := Demo.externals) request' 2020 2 10 w''
         = (Returned page, w'')
         /\ status_code page = 200.
Proof.
  intros request response w'.
  apply (saved_checklist_redirect_renders (E := Demo.externals)
           request 2020 2 10 Demo.world response w');
    reflexivity.
Defined.

(** The demo teacher keeps the math course: that POST saves the checklist;
    a GET of the same page leaves everything as it was. *)
Lemma teacher_views_write_only_on_valid_post_witness :
  snd (edit_checklist (E := Demo.externals)
         (Demo.post_request {["1000" := "on"]}) 2020 2 10 Demo.world)
  = {| db := Demo.save_checklist {["1000" := "on"]} Demo.year_2020
               Demo.school;
       messages := [] |}
  /\ snd (edit_checklist (E := Demo.externals) (get_request Demo.teacher)
            2020 2 10 Demo.world)
     = Demo.world.
Proof.
  split.
  - pose proof (proj1 (proj2
      (teacher_views_write_only_on_valid_post (E := Demo.externals)
         (Demo.post_request {["1000" := "on"]}) 2020 2 10 Demo.world))
      (mkdate 2020 2 10) Demo.year_2020) as Hsaved.
    assert (ChecklistForm_is_valid (Externals := Demo.externals)
              (db Demo.world)
              (POST (Demo.post_request {["1000" := "on"]}))
              Demo.year_2020 = true) as Hvalid
      by (vm_compute; reflexivity).
    exact (Hsaved eq_refl eq_refl eq_refl Hvalid).
  - pose proof (proj2 (proj2
      (teacher_views_write_only_on_valid_post (E := Demo.externals)
         (get_request Demo.teacher) 2020 2 10 Demo.world))) as Hread.
    apply Hread. intros week_day sy _ _ Hmethod. discriminate Hmethod.
Defined.

Lemma teacher_views_raise_out_of_range_witness :
  (checklist (E := Demo.externals) (get_request Demo.teacher) 2020 13 1
     Demo.world
   = (Raised ValueError, Demo.world)
   /\ edit_checklist (E := Demo.externals) (get_request Demo.teacher)
        2020 13 1 Demo.world
      = (Raised ValueError, Demo.world))
  /\ (checklist (E := Demo.externals) (get_request Demo.teacher)
        2147483648 1 1 Demo.world
      = (Raised OverflowError, Demo.world)
      /\ edit_checklist (E := Demo.externals) (get_request Demo.teacher)
           2147483648 1 1 Demo.world
         = (Raised OverflowError, Demo.world)).
Proof.
  split.
  - apply (teacher_views_raise_out_of_range (E := Demo.externals)
             (get_request Demo.teacher) 2020 13 1 Demo.world).
    lia.
  - apply (teacher_views_raise_out_of_range (E := Demo.externals)
             (get_request Demo.teacher) 2147483648 1 1 Demo.world).
    lia.
Defined.

Lemma edit_checklist_404_iff_witness :
  (exists w',
      edit_checklist (E := Demo.externals) (get_request Demo.teacher)
        2019 2 10 Demo.world
      = (Returned HttpResponseNotFound, w'))
  <-> get_year_for (Externals := Demo.externals) Demo.school Demo.teacher
        (mkdate 2019 2 10) = None.
Proof.
  apply (edit_checklist_404_iff (E := Demo.externals)
           (get_request Demo.teacher) 2019 2 10 Demo.world
           (mkdate 2019 2 10)).
  reflexivity.
Defined.

Lemma delete_preserves_admissible_witness :
  Schema.admissible Schema.operations
    (Schema.delete Schema.operations "schools.School" 1 Demo.tables).
Proof.
  apply (delete_preserves_admissible "schools.School" 1 Demo.tables).
  exact tables_admissible.
Defined.

Lemma delete_removes_exactly_referrers_witness :
  Schema.rows_of
    (Schema.delete Schema.operations "students.Student" 1 Demo.tables)
    "students.Coursework"
  = List.filter
      (fun r => negb (Schema.references "student" [1] r))
      (Schema.rows_of Demo.tables "students.Coursework").
Proof.
  apply (delete_removes_exactly_referrers
           "students.Coursework" "student" "students.Student"
           Schema.CASCADE 1 Demo.tables).
  - do 4 right. left. reflexivity.
  - eexists. split; [left; reflexivity | reflexivity].
Defined.

(** School 1 is deleted from the tables of the two schools: Bob's
    enrollment is left, and it points to no student of school 1. *)
Lemma delete_school_reaches_witness :
  Schema.rows_of
    (Schema.delete Schema.operations "schools.School" 1 Demo.both_schools)
    "students.Enrollment"
  <> []
  /\ Forall
       (fun row : gmap string Schema.Value =>
          In row (Schema.rows_of Demo.both_schools "students.Enrollment")
          /\ forall s ks,
               In s (Schema.rows_of Demo.both_schools "students.Student") ->
               s !! "school" = Some (Schema.VInt 1) ->
               Schema.key_of s = Some ks ->
               row !! "student" <> Some (Schema.VInt ks))
       (Schema.rows_of
          (Schema.delete Schema.operations "schools.School" 1
             Demo.both_schools)
          "students.Enrollment").
Proof.
  split; [vm_compute; discriminate|].
  apply List.Forall_forall.
  apply (delete_school_reaches "students.Enrollment" 1 Demo.both_schools).
  - left. reflexivity.
  - eexists. split; [left; reflexivity | reflexivity].
Defined.

Lemma delete_missing_key_witness :
  Schema.rows_of
    (Schema.delete Schema.operations "students.Student" 99 Demo.tables)
    "students.Enrollment"
  = Schema.rows_of Demo.tables "students.Enrollment".
Proof.
  apply (delete_missing_key Schema.operations "students.Student" 99
           Demo.tables).
  intros r Hr. destruct Hr as [<- | Hnil]; [|destruct Hnil].
  vm_compute. discriminate.
Defined.

(** Alice's coursework, entered a second time under the key 2. *)
Lemma any_row_can_be_duplicated_witness :
  let r : gmap string Schema.Value :=
    {[ "id" := Schema.VInt 1;
       "completed_date" := Schema.VDate (mkdate 2020 2 3);
       "course_task" := Schema.VInt 5000;
       "student" := Schema.VInt 1 ]} in
  let copy := <["id" := Schema.VInt 2]> r in
  Schema.admissible Schema.operations
    (<[Schema.label Schema.Coursework_table :=
         (Schema.rows_of Demo.tables
            (Schema.label Schema.Coursework_table) ++ [copy])%list]>
       Demo.tables)
  /\ copy <> r
  /\ forall column, column <> "id" -> copy !! column = r !! column.
Proof.
  intros r copy.
  apply (any_row_can_be_duplicated Schema.Coursework_table Demo.tables r 2).
  - right. right. left. reflexivity.
  - exact tables_admissible.
  - left. reflexivity.
  - intros r' Hr'. destruct Hr' as [<- | Hnil]; [|destruct Hnil].
    vm_compute. discriminate.
Defined.

(** Alice's student row a second time, under her own key. *)
Lemma duplicate_key_rejected_witness :
  let r : gmap string Schema.Value :=
    {[ "id" := Schema.VInt 1;
       "first_name" := Schema.VText "Alice";
       "last_name" := Schema.VText "Smith";
       "school" := Schema.VInt 1 ]} in
  In r (Schema.rows_of Demo.tables (Schema.label Schema.Student_table))
  /\ ~ Schema.admissible Schema.operations
         (<[Schema.label Schema.Student_table :=
              (Schema.rows_of Demo.tables
                 (Schema.label Schema.Student_table) ++ [r])%list]>
            Demo.tables).
Proof.
  intros r. split; [left; reflexivity|].
  apply (duplicate_key_rejected Schema.Student_table Demo.tables r r).
  - left. reflexivity.
  - left. reflexivity.
  - reflexivity.
Defined.
